(** * Getting Things GNOME: the D-Bus task wrapper and the plugin API

    A shallow embedding of [GTG/viewmanager/dbuswrapper.py] and
    [GTG/core/plugins/api.py].  Python dictionaries keyed by strings are
    [gmap string _]; Python calls that may raise run in a state-and-error
    monad; the objects the two files only call into (requester, view
    manager, task tree, GTK builder, file system, pickle, unicodedata) are
    interfaces, given as type classes. *)

From stdpp Require Import base option list strings gmap fin_maps.
From Stdlib Require Import ZArith NArith Ascii String Lia.

Set Default Proof Using "Type".
Set Warnings "-register-all".
Open Scope Z_scope.

(** ** Python values, results and the builtins the sources use *)

Module Py.

(** The errors a call can raise.  Every constructor stands for an instance
    of Python's [Exception] class, which is the class the handlers of
    [api.py] name ([except Exception]). *)
Inductive exn : Type :=
| TypeError
| ValueError
| IndexError
| AttributeError
| OtherError (name : string).

(** The outcome of a call: a value, or a raised exception. *)
Inductive res (A : Type) : Type :=
| Ok (a : A)
| Raise (e : exn).
Arguments Ok {A} a.
Arguments Raise {A} e.

(** A computation over a mutable store [S] that may raise.  The store that
    comes back with [Raise] is the store at the point of the raise: what an
    interrupted block has already written stays written. *)
Definition M (S A : Type) : Type := S → res A * S.

Definition ret {S A} (a : A) : M S A := λ s, (Ok a, s).

Definition bind {S A B} (c : M S A) (k : A → M S B) : M S B :=
  λ s, match c s with
       | (Ok a, s') => k a s'
       | (Raise e, s') => (Raise e, s')
       end.

Definition raise {S A} (e : exn) : M S A := λ s, (Raise e, s).

Definition get {S} : M S S := λ s, (Ok s, s).

Definition put {S} (s : S) : M S unit := λ _, (Ok tt, s).

(** [try: body / except Exception: handler]. *)
Definition try_except {S A} (body : M S A) (handler : exn → M S A) : M S A :=
  λ s, match body s with
       | (Ok a, s') => (Ok a, s')
       | (Raise e, s') => handler e s'
       end.

#[global] Instance M_ret {S} : MRet (M S) := λ A, @ret S A.
#[global] Instance M_bind {S} : MBind (M S) := λ A B k c, @bind S A B c k.

(** [[f(x) for x in l]]: the calls run left to right and the first raise
    ends the comprehension. *)
Fixpoint for_each {S A B} (f : A → M S B) (l : list A) : M S (list B) :=
  match l with
  | [] => ret []
  | x :: l' => y ← f x; ys ← for_each f l'; ret (y :: ys)
  end.

(** [for x in l: f(x)], for its effects only. *)
Fixpoint for_do {S A B} (f : A → M S B) (l : list A) : M S unit :=
  match l with
  | [] => ret tt
  | x :: l' => f x;; for_do f l'
  end.

(** Python values: [None], booleans, integers, strings, lists,
    [dbus.Array] (a subclass of [list] that carries a signature) and
    references to other objects, which compare by identity. *)
Inductive pyval : Type :=
| PNone
| PBool (b : bool)
| PInt (z : Z)
| PStr (s : string)
| PList (l : list pyval)
| PDbusArray (l : list pyval) (signature : string)
| PObj (id : positive).

(** [bool(v)], the truth value of [v] in a condition. *)
Definition truthy (v : pyval) : bool :=
  match v with
  | PNone => false
  | PBool b => b
  | PInt z => negb (z =? 0)
  | PStr s => negb (String.eqb s "")
  | PList l | PDbusArray l _ =>
      match l with [] => false | _ :: _ => true end
  | PObj _ => true
  end.

(** [isinstance(v, list)]. *)
Definition isinstance_list (v : pyval) : bool :=
  match v with
  | PList _ | PDbusArray _ _ => true
  | _ => false
  end.

(** [a == b].  A boolean equals the integer it stands for; lists compare
    element by element, whatever subclass of [list] they are. *)
Fixpoint py_eq (a b : pyval) {struct a} : bool :=
  let fix list_eq (x y : list pyval) {struct x} : bool :=
    match x, y with
    | [], [] => true
    | u :: x', v :: y' => py_eq u v && list_eq x' y'
    | _, _ => false
    end in
  match a, b with
  | PNone, PNone => true
  | PBool x, PBool y => Bool.eqb x y
  | PBool x, PInt y => Z.b2z x =? y
  | PInt x, PBool y => x =? Z.b2z y
  | PInt x, PInt y => x =? y
  | PStr x, PStr y => String.eqb x y
  | PList x, PList y => list_eq x y
  | PList x, PDbusArray y _ => list_eq x y
  | PDbusArray x _, PList y => list_eq x y
  | PDbusArray x _, PDbusArray y _ => list_eq x y
  | PObj i, PObj j => Pos.eqb i j
  | _, _ => false
  end.

(** [x in l]. *)
Definition py_in (x : pyval) (l : list pyval) : bool := existsb (py_eq x) l.

(** [l.pop(i)]: the index must be an integer (a boolean is one), a negative
    index counts from the end, and an index outside the list raises
    [IndexError].  Returns the element and the list without it. *)
Definition list_pop (l : list pyval) (i : pyval) : res (pyval * list pyval) :=
  let at_index (z : Z) :=
    let z' := if z <? 0 then z + Z.of_nat (List.length l) else z in
    if z' <? 0 then Raise IndexError
    else match l !! Z.to_nat z' with
         | Some x => Ok (x, take (Z.to_nat z') l ++ drop (S (Z.to_nat z')) l)
         | None => Raise IndexError
         end in
  match i with
  | PInt z => at_index z
  | PBool b => at_index (Z.b2z b)
  | _ => Raise TypeError
  end.

(** Calling a method of one positional parameter (after [self]) with the
    positional arguments [args]: any other number of arguments raises
    [TypeError] before the body runs. *)
Definition call1 {S A B} (f : A → M S B) (args : list A) : M S B :=
  match args with
  | [a] => f a
  | _ => raise TypeError
  end.

(** *** Text

    A Python [str] is a sequence of Unicode code points; the result of
    [encode] is a byte string, here a [string] of 7-bit characters. *)

(** The code points [str.strip()] removes: those [str.isspace] accepts. *)
Definition is_space (c : N) : bool :=
  (((9 <=? c) && (c <=? 13)) || ((28 <=? c) && (c <=? 32))
   || (c =? 133) || (c =? 160) || (c =? 5760)
   || ((8192 <=? c) && (c <=? 8202))
   || (c =? 8232) || (c =? 8233) || (c =? 8239) || (c =? 8287)
   || (c =? 12288))%N.

Fixpoint lstrip (s : list N) : list N :=
  match s with
  | c :: s' => if is_space c then lstrip s' else s
  | [] => []
  end.

Definition rstrip (s : list N) : list N := rev (lstrip (rev s)).

(** [s.strip()]. *)
Definition strip (s : list N) : list N := rstrip (lstrip s).

(** [s.split(sep)] for a separator of one code point: the pieces between
    the separators, empty pieces included; never an empty list. *)
Fixpoint split (sep : N) (s : list N) : list (list N) :=
  match s with
  | [] => [[]]
  | c :: s' =>
      if (c =? sep)%N then [] :: split sep s'
      else match split sep s' with
           | piece :: pieces => (c :: piece) :: pieces
           | [] => [[c]]
           end
  end.

(** [sep.join(pieces)]. *)
Fixpoint join (sep : N) (pieces : list (list N)) : list N :=
  match pieces with
  | [] => []
  | [piece] => piece
  | piece :: pieces' => piece ++ sep :: join sep pieces'
  end.

(** [s.encode('ascii', 'ignore')]: the code points below 128 are kept, in
    order, one byte each; the others are dropped. *)
Fixpoint encode_ascii_ignore (s : list N) : string :=
  match s with
  | [] => EmptyString
  | c :: s' =>
      if (c <? 128)%N then String (ascii_of_N c) (encode_ascii_ignore s')
      else encode_ascii_ignore s'
  end.

(** The code point of [","]. *)
Definition comma : N := 44%N.

(** [unicodedata.normalize('NFKD', s)], a table of the Unicode database. *)
Class Unicodedata : Type := { normalize_NFKD : list N → list N }.

(** *** The path of a file in a directory *)

Definition starts_with_slash (s : string) : bool :=
  match s with
  | String c _ => Ascii.eqb c "/"
  | EmptyString => false
  end.

Fixpoint ends_with_slash (s : string) : bool :=
  match s with
  | EmptyString => false
  | String c EmptyString => Ascii.eqb c "/"
  | String _ s' => ends_with_slash s'
  end.

(** [os.path.join(a, b)] on POSIX: an absolute [b] replaces [a]; otherwise
    [b] is appended, after a slash unless [a] is empty or ends in one. *)
Definition os_path_join (a b : string) : string :=
  if starts_with_slash b then b
  else if String.eqb a "" || ends_with_slash a then a +:+ b
  else a +:+ "/" +:+ b.

(** *** Raises outside [Exception]

    [SystemExit], [KeyboardInterrupt] and [GeneratorExit] derive from
    [BaseException] and not from [Exception]: a handler [except Exception]
    does not catch them.  Code that runs callables it was handed, as
    unpickling does, can end in one of them. *)
Inductive exit : Type :=
| SystemExit (code : pyval)
| KeyboardInterrupt
| GeneratorExit.

(** The outcome of a call that can also end in such a raise. *)
Inductive outcome (A : Type) : Type :=
| Returns (r : res A)
| Exits (x : exit).
Arguments Returns {A} r.
Arguments Exits {A} x.
Coercion Returns : res >-> outcome.

(** A computation over a store [S] with these outcomes. *)
Definition X (S A : Type) : Type := S → outcome A * S.

Definition X_bind {S A B} (c : X S A) (k : A → X S B) : X S B :=
  λ s, match c s with
       | (Returns (Ok a), s') => k a s'
       | (Returns (Raise e), s') => (Returns (Raise e), s')
       | (Exits x, s') => (Exits x, s')
       end.

#[global] Instance X_ret {S} : MRet (X S) := λ A a s, (Returns (Ok a), s).
#[global] Instance X_mbind {S} : MBind (X S) := λ A B k c, @X_bind S A B c k.

(** A computation that raises nothing but instances of [Exception]. *)
Definition no_exit {S A} (c : M S A) : X S A :=
  λ s, let (r, s') := c s in (Returns r, s').

(** [try: body / except Exception: handler], where [body] can end in a
    raise outside [Exception]: that raise passes through the handler. *)
Definition try_except_Exception {S A} (body : X S A) (handler : exn → X S A)
  : X S A :=
  λ s, match body s with
       | (Returns (Ok a), s') => (Returns (Ok a), s')
       | (Returns (Raise e), s') => handler e s'
       | (Exits x, s') => (Exits x, s')
       end.

End Py.

(** ** GTG/viewmanager/dbuswrapper.py *)

Module dbuswrapper.
Import Py.

(** [dsanitize(data)]: clean up a dict so that it can be sent over D-Bus.
    The loop visits every item of [data] once and writes into [data]
    itself; it only ever rebinds the key it is visiting, so each item is
    seen with the value it had on entry. *)
Definition dsanitize (data : gmap string pyval) : gmap string pyval :=
  map_fold
    (λ k v data',
       if negb (truthy v) && isinstance_list v
       then <[k := PDbusArray [] "s"]> data'
       else if py_eq v PNone
       then <[k := PStr ""]> data'
       else data')
    data data.

(** What [dbuswrapper.py] reads of a task object (the class lives in
    [GTG.core.task]): the results of its accessors.  The three dates are
    date objects of [GTG.tools.dates]. *)
Record Task (Date : Type) : Type := {
  get_id : pyval;
  get_status : pyval;
  get_title : pyval;
  get_due_date : Date;
  get_start_date : Date;
  get_closed_date : Date;
  get_tags_name : pyval;
  get_text : pyval;
  get_children : pyval;
}.
Arguments get_id {Date} _.
Arguments get_status {Date} _.
Arguments get_title {Date} _.
Arguments get_due_date {Date} _.
Arguments get_start_date {Date} _.
Arguments get_closed_date {Date} _.
Arguments get_tags_name {Date} _.
Arguments get_text {Date} _.
Arguments get_children {Date} _.

(** [str(d)] for a date object [d]. *)
Class Dates (Date : Type) : Type := { date_str : Date → string }.

(** [task_to_dict(task)]: the dict literal, sanitized.  [dbus.Dictionary]
    wraps the dict with a signature and keeps its items. *)
Definition task_to_dict `{Dates Date} (task : Task Date) : gmap string pyval :=
  dsanitize
    (<["subtask" := get_children task]>
    (<["text" := get_text task]>
    (<["tags" := get_tags_name task]>
    (<["donedate" := PStr (date_str (get_closed_date task))]>
    (<["startdate" := PStr (date_str (get_start_date task))]>
    (<["duedate" := PStr (date_str (get_due_date task))]>
    (<["title" := get_title task]>
    (<["status" := get_status task]>
    (<["id" := get_id task]> ∅))))))))).

(** The objects the wrapper calls into.  [W] is the state of everything
    outside the wrapper; each method takes the object it is called on
    first.  [req_get_task] gives the task object, or [None]. *)
Class Requester (W Date : Type) : Type := {
  req_get_tasks_list : pyval → list string → M W (list pyval);
  req_get_task : pyval → pyval → M W (option (Task Date));
  req_has_task : pyval → pyval → M W pyval;
  req_delete_task : pyval → pyval → M W pyval;
  req_get_custom_tasks_tree : pyval → M W pyval;
  tree_apply_filter : pyval → pyval → M W pyval;
  tree_get_all_keys : pyval → M W (list pyval);
}.

Class ViewManager (W : Type) : Type := {
  vm_open_task : pyval → pyval → M W pyval;
  vm_hide_browser : pyval → M W pyval;
  vm_show_browser : pyval → M W pyval;
}.

(** The attributes [__init__] sets on the service object. *)
Record DBusTaskWrapper : Type := {
  bus : pyval;
  req : pyval;
  view_manager : pyval;
}.

(** The wrapper object together with the world it talks to. *)
Record Heap (W : Type) : Type := {
  self : DBusTaskWrapper;
  world : W;
}.
Arguments self {W} _.
Arguments world {W} _.
Arguments Build_Heap {W} _ _.

(** A call into the world: it runs on the world and leaves the wrapper's
    attributes as they are. *)
Definition ext {W A} (c : M W A) : M (Heap W) A :=
  λ h, let (r, w) := c (world h) in (r, Build_Heap (self h) w).

(** Reading an attribute of [self]. *)
Definition attr {W A} (field : DBusTaskWrapper → A) : M (Heap W) A :=
  λ h, (Ok (field (self h)), h).

(** What [get_tasks_filtered] returns: a list of task dicts, or
    [dbus.Array([], signature)]. *)
Inductive task_dicts : Type :=
| TaskDicts (l : list (gmap string pyval))
| EmptyArray (signature : string).

Section methods.
Context {W Date : Type} `{!Dates Date, !Requester W Date, !ViewManager W}.
Context `{!Unicodedata}.

Definition get_task_ids (status_string : list N) : M (Heap W) (list pyval) :=
  let status := map strip (split comma status_string) in
  let status := map (λ s, encode_ascii_ignore (normalize_NFKD s)) status in
  r ← attr req;
  ext (req_get_tasks_list r status).

(** [task_to_dict(None)] fails at its first attribute access. *)
Definition get_task (tid : pyval) : M (Heap W) (gmap string pyval) :=
  r ← attr req;
  task ← ext (req_get_task r tid);
  match task with
  | Some task => mret (task_to_dict task)
  | None => raise AttributeError
  end.

(** [self.get_task_ids()] passes no argument for [status_string]. *)
Definition get_tasks : M (Heap W) (list (gmap string pyval)) :=
  ids ← call1 get_task_ids [];
  for_each get_task ids.

Definition get_task_ids_filtered (filters : list pyval) : M (Heap W) (list pyval) :=
  r ← attr req;
  tree ← ext (req_get_custom_tasks_tree r);
  for_do (λ filter, ext (tree_apply_filter tree filter)) filters;;
  ext (tree_get_all_keys tree).

Definition get_tasks_filtered (filters : list pyval) : M (Heap W) task_dicts :=
  tasks ← get_task_ids_filtered filters;
  match tasks with
  | _ :: _ => dicts ← for_each get_task tasks; mret (TaskDicts dicts)
  | [] => mret (EmptyArray "s")
  end.

Definition get_active_tasks (tags : list pyval) : M (Heap W) task_dicts :=
  get_tasks_filtered [PStr "active"; PStr "workable"].

Definition has_task (tid : pyval) : M (Heap W) pyval :=
  r ← attr req;
  ext (req_has_task r tid).

Definition delete_task (tid : pyval) : M (Heap W) pyval :=
  r ← attr req;
  ext (req_delete_task r tid);;
  mret PNone.

Definition open_task_editor (tid : pyval) : M (Heap W) pyval :=
  vm ← attr view_manager;
  ext (vm_open_task vm tid);;
  mret PNone.

Definition hide_task_browser : M (Heap W) pyval :=
  vm ← attr view_manager;
  ext (vm_hide_browser vm);;
  mret PNone.

Definition show_task_browser : M (Heap W) pyval :=
  vm ← attr view_manager;
  ext (vm_show_browser vm);;
  mret PNone.

End methods.

(** *** The methods that change a task

    These methods keep the task object the requester gives and call its
    setters, so here the requester's [get_task] and [new_task] give the
    object itself ([None] when there is none), and [task_read] gives what
    its accessors return when [task_to_dict] calls them.  [strtodate] is
    [GTG.tools.dates.strtodate]. *)
Class TaskObjects (W Date : Type) : Type := {
  req_get_task_object : pyval → pyval → M W pyval;
  req_new_task : pyval → list pyval → M W pyval;
  strtodate : pyval → M W pyval;
  task_set_status : pyval → pyval → pyval → M W pyval;
  task_set_title : pyval → pyval → M W pyval;
  task_set_due_date : pyval → pyval → M W pyval;
  task_set_start_date : pyval → pyval → M W pyval;
  task_set_text : pyval → pyval → M W pyval;
  task_add_tag : pyval → pyval → M W pyval;
  task_add_child : pyval → pyval → M W pyval;
  task_read : pyval → M W (Task Date);
}.

(** [obj.method(...)]: the attribute is looked up before the arguments
    are evaluated, and [None] has none of these methods. *)
Definition call_method {S A} (obj : pyval) (call : M S A) : M S A :=
  match obj with
  | PNone => raise AttributeError
  | _ => call
  end.

(** [d[k]]: a missing key raises [KeyError]. *)
Definition getitem {S} (d : gmap string pyval) (k : string) : M S pyval :=
  match d !! k with
  | Some v => ret v
  | None => raise (OtherError "KeyError")
  end.

Fixpoint characters (s : string) : list pyval :=
  match s with
  | EmptyString => []
  | String c s' => PStr (String c EmptyString) :: characters s'
  end.

(** [for x in v]: what the loop runs over.  A list gives its elements, a
    string its characters; [None], numbers and other objects cannot be
    iterated. *)
Definition iterate {S} (v : pyval) : M S (list pyval) :=
  match v with
  | PList l | PDbusArray l _ => ret l
  | PStr s => ret (characters s)
  | _ => raise TypeError
  end.

Section task_methods.
Context {W Date : Type} `{!Dates Date, !TaskObjects W Date}.

Definition new_task (status title duedate startdate donedate : pyval)
    (tags : list pyval) (text : pyval) (subtasks : list pyval)
  : M (Heap W) (gmap string pyval) :=
  r ← attr req;
  nt ← ext (req_new_task r tags);
  for_do (λ sub, call_method nt (ext (task_add_child nt sub))) subtasks;;
  call_method nt (d ← ext (strtodate donedate); ext (task_set_status nt status d));;
  call_method nt (ext (task_set_title nt title));;
  call_method nt (d ← ext (strtodate duedate); ext (task_set_due_date nt d));;
  call_method nt (d ← ext (strtodate startdate); ext (task_set_start_date nt d));;
  call_method nt (ext (task_set_text nt text));;
  task ← call_method nt (ext (task_read nt));
  mret (task_to_dict task).

Definition modify_task (tid : pyval) (task_data : gmap string pyval)
  : M (Heap W) (gmap string pyval) :=
  r ← attr req;
  task ← ext (req_get_task_object r tid);
  call_method task
    (status ← getitem task_data "status";
     donedate ← getitem task_data "donedate";
     ext (task_set_status task status donedate));;
  call_method task (v ← getitem task_data "title"; ext (task_set_title task v));;
  call_method task (v ← getitem task_data "duedate"; ext (task_set_due_date task v));;
  call_method task (v ← getitem task_data "startdate"; ext (task_set_start_date task v));;
  call_method task (v ← getitem task_data "text"; ext (task_set_text task v));;
  tags ← getitem task_data "tags";
  tags ← iterate tags;
  for_do (λ tag, call_method task (ext (task_add_tag task tag))) tags;;
  subs ← getitem task_data "subtask";
  subs ← iterate subs;
  for_do (λ sub, call_method task (ext (task_add_child task sub))) subs;;
  t ← call_method task (ext (task_read task));
  mret (task_to_dict t).

End task_methods.

(** The status list [get_task_ids] hands to the requester. *)
Definition status_list `{!Unicodedata} (status_string : list N) : list string :=
  map (λ s, encode_ascii_ignore (normalize_NFKD s))
      (map strip (split comma status_string)).

(** A piece of a status string: its text, with white space before and
    after it. *)
Definition padded (p : list N * list N * list N) : list N :=
  p.1.1 ++ p.1.2 ++ p.2.

End dbuswrapper.

(** ** GTG/core/plugins/api.py *)

Module api.
Import Py.

(** The attributes of a [PluginAPI] object. *)
Record PluginAPI : Type := {
  requester : pyval;
  view_manager : pyval;
  selection_changed_callback_listeners : list pyval;
  ui : pyval;
  builder : pyval;
  task_id : pyval;
  taskwidget_id : Z;
  taskwidget_widg : list pyval;
}.

Definition set_taskwidget_id (n : Z) (a : PluginAPI) : PluginAPI :=
  {| requester := requester a; view_manager := view_manager a;
     selection_changed_callback_listeners := selection_changed_callback_listeners a;
     ui := ui a; builder := builder a; task_id := task_id a;
     taskwidget_id := n; taskwidget_widg := taskwidget_widg a |}.

Definition set_taskwidget_widg (l : list pyval) (a : PluginAPI) : PluginAPI :=
  {| requester := requester a; view_manager := view_manager a;
     selection_changed_callback_listeners := selection_changed_callback_listeners a;
     ui := ui a; builder := builder a; task_id := task_id a;
     taskwidget_id := taskwidget_id a; taskwidget_widg := l |}.

(** *** Accessor methods *)

Definition is_editor (a : PluginAPI) : bool := truthy (task_id a).

Definition is_browser (a : PluginAPI) : bool := negb (is_editor a).

(** *** Changing the UI *)

(** The GTK calls of the two task-editor methods, on a toolkit state [G];
    each takes the object it is called on first.  [builder_get_object]
    gives the widget of that name, or [None]. *)
Class Gtk (G : Type) : Type := {
  builder_get_object : pyval → string → M G pyval;
  box_pack_start : pyval → pyval → M G pyval;
  box_reorder_child : pyval → pyval → Z → M G pyval;
  widget_show_all : pyval → M G pyval;
  container_remove : pyval → pyval → M G pyval;
}.

(** The API object, the toolkit it drives, and what the module's logger
    has recorded. *)
Record Heap (G : Type) : Type := {
  self : PluginAPI;
  gtk : G;
  log : list string;
}.
Arguments self {G} _.
Arguments gtk {G} _.
Arguments log {G} _.
Arguments Build_Heap {G} _ _ _.

Definition ext {G A} (c : M G A) : M (Heap G) A :=
  λ h, let (r, g) := c (gtk h) in (r, Build_Heap (self h) g (log h)).

Definition attr {G A} (field : PluginAPI → A) : M (Heap G) A :=
  λ h, (Ok (field (self h)), h).

Definition set_attr {G} (f : PluginAPI → PluginAPI) : M (Heap G) unit :=
  λ h, (Ok tt, Build_Heap (f (self h)) (gtk h) (log h)).

(** [log.exception(msg)]. *)
Definition log_exception {G} (msg : string) : M (Heap G) pyval :=
  λ h, (Ok PNone, Build_Heap (self h) (gtk h) (log h ++ [msg])).

(** [self.taskwidget_widg.pop(i)]. *)
Definition taskwidget_widg_pop {G} (i : pyval) : M (Heap G) pyval :=
  widgets ← attr taskwidget_widg;
  match list_pop widgets i with
  | Ok (w, rest) => set_attr (set_taskwidget_widg rest);; mret w
  | Raise e => raise e
  end.

Section ui.
Context {G : Type} `{!Gtk G}.

(** Returns the new widget id, or [None] when there is no plugin box. *)
Definition add_widget_to_taskeditor (widget : pyval) : M (Heap G) pyval :=
  b ← attr builder;
  vbox ← ext (builder_get_object b "pluginbox");
  if truthy vbox then
    ext (box_pack_start vbox widget);;
    ext (box_reorder_child vbox widget (-2));;
    ext (widget_show_all widget);;
    n ← attr taskwidget_id;
    set_attr (set_taskwidget_id (n + 1));;
    widgets ← attr taskwidget_widg;
    set_attr (set_taskwidget_widg (widgets ++ [widget]));;
    n ← attr taskwidget_id;
    mret (PInt n)
  else mret PNone.

(** The statements under [try] in [remove_widget_from_taskeditor]. *)
Definition remove_widget_try (widg_id : pyval) : M (Heap G) pyval :=
  b ← attr builder;
  wi ← ext (builder_get_object b "vbox4");
  widgets ← attr taskwidget_widg;
  if truthy wi && py_in widg_id widgets then
    w ← taskwidget_widg_pop widg_id;
    ext (container_remove wi w);;
    mret PNone
  else mret PNone.

Definition remove_widget_from_taskeditor (widg_id : pyval) : M (Heap G) pyval :=
  a ← attr id;
  if is_editor a && truthy widg_id then
    try_except
      (remove_widget_try widg_id)
      (λ _, log_exception "Error removing the toolbar item in the TaskEditor:")
  else mret PNone.

End ui.

(** *** File saving and loading *)

(** An object as [pickle] stores it and as [dict.update] consumes it: a
    dict; any other iterable, each element of which either is a key-value
    pair or is not; or an object that cannot be iterated. *)
Inductive pyobj (K : Type) `{Countable K} : Type :=
| Dict (d : gmap K pyval)
| Iterable (elements : list (option (K * pyval)))
| Scalar (v : pyval).
Arguments Dict {K _ _} d.
Arguments Iterable {K _ _} elements.
Arguments Scalar {K _ _} v.

(** [GTG.core.dirs.plugin_configuration_dir]. *)
Class Dirs : Type := { plugin_configuration_dir : string → string }.

(** Files, on a file-system state [F], with contents of type [Bytes].
    [read_file] is [open(path, 'rb')] and reading the file to its end;
    [open_wb] is [open(path, 'wb')], which creates or empties the file;
    [write_file] writes the contents and closes the file. *)
Class FileSystem (F Bytes : Type) : Type := {
  os_path_isdir : string → F → bool;
  os_makedirs : string → M F unit;
  read_file : string → M F Bytes;
  open_wb : string → M F unit;
  write_file : string → Bytes → M F unit;
}.

(** [pickle.dumps] and [pickle.loads].  Unpickling calls what the data
    names, so besides returning an object or raising an [Exception] it can
    end in a raise outside [Exception]. *)
Class Pickle (K Bytes : Type) `{Countable K} : Type := {
  pickle_dumps : pyobj K → res Bytes;
  pickle_loads : Bytes → outcome (pyobj K);
}.

Section configuration.
Context {K F Bytes : Type} `{Countable K}.
Context `{!Dirs, !FileSystem F Bytes, !Pickle K Bytes}.

(** [config.update(pairs)] for an iterable that is not a dict: the pairs
    are stored one by one, and the first element that is not a pair
    raises, after the pairs before it have been stored. *)
Fixpoint update_from_pairs (elements : list (option (K * pyval)))
  : M (gmap K pyval) unit :=
  match elements with
  | [] => ret tt
  | Some (k, v) :: rest =>
      (λ config, (Ok tt, <[k := v]> config));; update_from_pairs rest
  | None :: _ => raise TypeError
  end.

(** [config.update(item)]. *)
Definition dict_update (item : pyobj K) : M (gmap K pyval) unit :=
  match item with
  | Dict d => λ config, (Ok tt, d ∪ config)
  | Iterable elements => update_from_pairs elements
  | Scalar _ => raise TypeError
  end.

(** The body of a function with the local variable [config]: a step on
    the file system, a step on [config], a step that touches neither. *)
Definition on_fs {A} (c : M F A) : M (gmap K pyval * F) A :=
  λ '(config, f), let (r, f') := c f in (r, (config, f')).

Definition on_config {A} (c : M (gmap K pyval) A) : M (gmap K pyval * F) A :=
  λ '(config, f), let (r, config') := c config in (r, (config', f)).


Definition load_configuration_object (plugin_name filename : string)
    (default_values : option (gmap K pyval)) : X F (gmap K pyval) :=
  λ f,
    let config := match default_values with
                  | Some d => d
                  | None => ∅
                  end in
    let dirname := plugin_configuration_dir plugin_name in
    let path := os_path_join dirname filename in
    let '(r, (config, f)) :=
      try_except_Exception
        (data ← no_exit (on_fs (read_file path));
         item ← (λ s, (pickle_loads data, s));
         no_exit (on_config (dict_update item)))
        (λ _, mret tt)
        (config, f) in
    (match r with
     | Returns (Ok _) => Returns (Ok config)
     | Returns (Raise e) => Returns (Raise e)
     | Exits x => Exits x
     end, f).


End configuration.

(** The key-value pairs an iterable gives before its first element that
    is not a pair. *)
Fixpoint leading_pairs {K : Type} (elements : list (option (K * pyval)))
  : list (K * pyval) :=
  match elements with
  | Some p :: rest => p :: leading_pairs rest
  | _ => []
  end.

(** *** Construction and selection callbacks *)

(** What [__init__] asks of the windows: [ui.get_builder()],
    [taskeditor.get_task()], the attribute [view_manager.browser], and
    [browser.selection.connect("changed", callback)]. *)
Class Windows (G : Type) : Type := {
  get_builder : pyval → M G pyval;
  taskeditor_get_task : pyval → M G pyval;
  view_manager_browser : pyval → M G pyval;
  selection_connect_changed : pyval → M G pyval;
}.

(** [PluginAPI(requester, view_manager, taskeditor)]: the attributes the
    constructor leaves on the new object. *)
Definition __init__ {G} `{!Windows G} (requester view_manager taskeditor : pyval)
  : M G PluginAPI :=
  if truthy taskeditor then
    b ← get_builder taskeditor;
    t ← taskeditor_get_task taskeditor;
    mret {| requester := requester; view_manager := view_manager;
            selection_changed_callback_listeners := [];
            ui := taskeditor; builder := b; task_id := t;
            taskwidget_id := 0; taskwidget_widg := [] |}
  else
    browser ← view_manager_browser view_manager;
    b ← get_builder browser;
    browser' ← view_manager_browser view_manager;
    selection_connect_changed browser';;
    mret {| requester := requester; view_manager := view_manager;
            selection_changed_callback_listeners := [];
            ui := browser; builder := b; task_id := PNone;
            taskwidget_id := 0; taskwidget_widg := [] |}.

Definition set_listeners (l : list pyval) (a : PluginAPI) : PluginAPI :=
  {| requester := requester a; view_manager := view_manager a;
     selection_changed_callback_listeners := l;
     ui := ui a; builder := builder a; task_id := task_id a;
     taskwidget_id := taskwidget_id a; taskwidget_widg := taskwidget_widg a |}.

Definition set_active_selection_changed_callback {G} (func : pyval)
  : M (Heap G) pyval :=
  listeners ← attr selection_changed_callback_listeners;
  if negb (py_in func listeners) then
    set_attr (set_listeners (listeners ++ [func]));;
    mret PNone
  else mret PNone.

(** [v.__class__]. *)
Class Classes : Type := { class_of : pyval → pyval }.

Definition remove_active_selection_changed_callback {G} `{!Classes}
    (plugin_class : pyval) : M (Heap G) pyval :=
  listeners ← attr selection_changed_callback_listeners;
  let new_list :=
    List.filter (λ func, negb (py_eq (class_of func) plugin_class)) listeners in
  set_attr (set_listeners new_list);;
  mret PNone.

(** The ids handed out so far are at least as many as the widgets in the
    list. *)
Definition widget_count_ok (a : PluginAPI) : Prop :=
  Z.of_nat (List.length (taskwidget_widg a)) ≤ taskwidget_id a.

(** A value that is an object reference, as a GTK widget is. *)
Definition is_object (v : pyval) : Prop := ∃ i, v = PObj i.

End api.

(** ** The sanitized value of an item, as the specification words it

    "empty lists become typed empty arrays; None becomes empty string";
    every other value is kept. *)

Definition sanitized_value (v : Py.pyval) : Py.pyval :=
  match v with
  | Py.PList [] | Py.PDbusArray [] _ => Py.PDbusArray [] "s"
  | Py.PNone => Py.PStr ""
  | _ => v
  end.

(** The items [dsanitize] rebinds. *)
Definition rebinds (v : Py.pyval) : bool :=
  negb (Py.truthy v) && Py.isinstance_list v || Py.py_eq v Py.PNone.

(** A dict fit for D-Bus: the nine keys of a task, no item that is
    [None], no item that is a plain empty list. *)
Definition task_dict_ok (d : gmap string Py.pyval) : Prop :=
  dom d = {["id"; "status"; "title"; "duedate"; "startdate"; "donedate";
            "tags"; "text"; "subtask"]}
  ∧ ∀ k, d !! k ≠ Some Py.PNone ∧ d !! k ≠ Some (Py.PList []).

(** ** A small world to run the methods in

    Dates are kept as their text, tasks in a table by id, files in a table
    by path; a file holds the objects pickled into it, in order. *)

Module InMemory.
Import Py.

#[global] Instance text_dates : dbuswrapper.Dates string := {| dbuswrapper.date_str := id |}.

(** NFKD on the few code points the examples use: "é" (233) decomposes
    into "e" and the combining acute accent (769); ASCII is unchanged. *)
#[global] Instance small_unicodedata : Unicodedata :=
  {| normalize_NFKD :=
       flat_map (λ c, if (c =? 233)%N then [101%N; 769%N] else [c]) |}.

Record world : Type := {
  tasks : gmap string (dbuswrapper.Task string);
  filters : list pyval;
  browser_shown : bool;
  editors : list pyval;
}.

Definition with_tasks (t : gmap string (dbuswrapper.Task string)) (w : world) : world :=
  {| tasks := t; filters := filters w; browser_shown := browser_shown w;
     editors := editors w |}.

Definition with_filters (l : list pyval) (w : world) : world :=
  {| tasks := tasks w; filters := l; browser_shown := browser_shown w;
     editors := editors w |}.

Definition with_browser_shown (b : bool) (w : world) : world :=
  {| tasks := tasks w; filters := filters w; browser_shown := b;
     editors := editors w |}.

Definition with_editors (l : list pyval) (w : world) : world :=
  {| tasks := tasks w; filters := filters w; browser_shown := browser_shown w;
     editors := l |}.

Definition status_text (t : dbuswrapper.Task string) : string :=
  match dbuswrapper.get_status t with
  | PStr s => s
  | _ => ""
  end.

Definition lookup_task (tid : pyval) (w : world) : option (dbuswrapper.Task string) :=
  match tid with
  | PStr s => tasks w !! s
  | _ => None
  end.

#[global] Instance table_requester : dbuswrapper.Requester world string := {|
  dbuswrapper.req_get_tasks_list _ status w :=
    (Ok (omap (λ '(i, t), if bool_decide (status_text t ∈ status)
                           then Some (PStr i) else None)
              (map_to_list (tasks w))), w);
  dbuswrapper.req_get_task _ tid w := (Ok (lookup_task tid w), w);
  dbuswrapper.req_has_task _ tid w :=
    (Ok (PBool (bool_decide (is_Some (lookup_task tid w)))), w);
  dbuswrapper.req_delete_task _ tid w :=
    match tid with
    | PStr s => (Ok PNone, with_tasks (delete s (tasks w)) w)
    | _ => (Ok PNone, w)
    end;
  dbuswrapper.req_get_custom_tasks_tree _ w := (Ok (PObj 3), with_filters [] w);
  dbuswrapper.tree_apply_filter _ f w := (Ok PNone, with_filters (filters w ++ [f]) w);
  dbuswrapper.tree_get_all_keys _ w :=
    (Ok (omap (λ '(i, t), if forallb (λ f, py_eq f (PStr (status_text t))
                                               || py_eq f (PStr "workable")) (filters w)
                           then Some (PStr i) else None)
              (map_to_list (tasks w))), w);
|}.

#[global] Instance table_view_manager : dbuswrapper.ViewManager world := {|
  dbuswrapper.vm_open_task _ tid w := (Ok PNone, with_editors (editors w ++ [tid]) w);
  dbuswrapper.vm_hide_browser _ w := (Ok PNone, with_browser_shown false w);
  dbuswrapper.vm_show_browser _ w := (Ok PNone, with_browser_shown true w);
|}.

Definition wrapper : dbuswrapper.DBusTaskWrapper :=
  {| dbuswrapper.bus := PObj 1; dbuswrapper.req := PObj 2;
     dbuswrapper.view_manager := PObj 4 |}.

Definition task_a : dbuswrapper.Task string :=
  {| dbuswrapper.get_id := PStr "a"; dbuswrapper.get_status := PStr "active";
     dbuswrapper.get_title := PStr "Write report";
     dbuswrapper.get_due_date := "2013-05-01"; dbuswrapper.get_start_date := "";
     dbuswrapper.get_closed_date := "";
     dbuswrapper.get_tags_name := PList []; dbuswrapper.get_text := PNone;
     dbuswrapper.get_children := PList [PStr "b"] |}.

Definition task_b : dbuswrapper.Task string :=
  {| dbuswrapper.get_id := PStr "b"; dbuswrapper.get_status := PStr "done";
     dbuswrapper.get_title := PStr "Collect data";
     dbuswrapper.get_due_date := ""; dbuswrapper.get_start_date := "";
     dbuswrapper.get_closed_date := "2013-04-02";
     dbuswrapper.get_tags_name := PList [PStr "@work"]; dbuswrapper.get_text := PStr "";
     dbuswrapper.get_children := PList [] |}.

Definition two_tasks : dbuswrapper.Heap world :=
  dbuswrapper.Build_Heap wrapper
    {| tasks := <["a" := task_a]> (<["b" := task_b]> ∅); filters := [];
       browser_shown := true; editors := [] |}.

(** The toolkit: the widgets the builder knows by name, the widgets that
    were removed from a container, and the widget, if any, whose removal
    fails. *)
Record toolkit : Type := {
  objects : gmap string pyval;
  removed : list pyval;
  stuck : option pyval;
}.

#[global] Instance table_gtk : api.Gtk toolkit := {|
  api.builder_get_object _ name g :=
    (Ok (default PNone (objects g !! name)), g);
  api.box_pack_start _ _ g := (Ok PNone, g);
  api.box_reorder_child _ _ _ g := (Ok PNone, g);
  api.widget_show_all _ g := (Ok PNone, g);
  api.container_remove _ w g :=
    match stuck g with
    | Some s => if py_eq s w then (Raise (OtherError "GLib.Error"), g)
                else (Ok PNone, {| objects := objects g; removed := removed g ++ [w];
                                   stuck := stuck g |})
    | None => (Ok PNone, {| objects := objects g; removed := removed g ++ [w];
                            stuck := stuck g |})
    end;
|}.

#[global] Instance home_dirs : api.Dirs :=
  {| api.plugin_configuration_dir name := "/home/user/.config/gtg/plugins/" +:+ name |}.

(** Every directory exists; a file that was never written cannot be read. *)
#[global] Instance table_fs : api.FileSystem (gmap string (list (api.pyobj string)))
                                             (list (api.pyobj string)) := {|
  api.os_path_isdir _ _ := true;
  api.os_makedirs _ f := (Ok tt, f);
  api.read_file path f :=
    match f !! path with
    | Some data => (Ok data, f)
    | None => (Raise (OtherError "FileNotFoundError"), f)
    end;
  api.open_wb path f := (Ok tt, <[path := []]> f);
  api.write_file path data f := (Ok tt, <[path := data]> f);
|}.

#[global] Instance list_pickle : api.Pickle string (list (api.pyobj string)) := {|
  api.pickle_dumps o := Ok [o];
  api.pickle_loads data :=
    match data with
    | o :: _ => Returns (Ok o)
    | [] => Returns (Raise (OtherError "EOFError"))
    end;
|}.

(** Pickle data as the instructions it holds: an object to rebuild, or a
    call of [sys.exit] with a code (a REDUCE of the global [sys.exit],
    which [pickle.load] runs as it meets it). *)
Inductive instruction : Type :=
| Rebuild (o : api.pyobj string)
| CallSysExit (code : pyval).

#[global] Instance instruction_fs : api.FileSystem (gmap string (list instruction))
                                                   (list instruction) := {|
  api.os_path_isdir _ _ := true;
  api.os_makedirs _ f := (Ok tt, f);
  api.read_file path f :=
    match f !! path with
    | Some data => (Ok data, f)
    | None => (Raise (OtherError "FileNotFoundError"), f)
    end;
  api.open_wb path f := (Ok tt, <[path := []]> f);
  api.write_file path data f := (Ok tt, <[path := data]> f);
|}.

#[global] Instance instruction_pickle : api.Pickle string (list instruction) := {|
  api.pickle_dumps o := Ok [Rebuild o];
  api.pickle_loads data :=
    match data with
    | Rebuild o :: _ => Returns (Ok o)
    | CallSysExit code :: _ => Exits (SystemExit code)
    | [] => Returns (Raise (OtherError "EOFError"))
    end;
|}.

(** A plugin's settings: the dict it saves, the defaults it loads over,
    and the files once the dict is saved. *)
Definition saved_settings : gmap string pyval := {["color" := PStr "red"]}.

Definition default_settings : gmap string pyval :=
  <["color" := PStr "blue"]> {["size" := PInt 3]}.

Definition saved_files : gmap string (list (api.pyobj string)) :=
  {["/home/user/.config/gtg/plugins/hamster/settings" := [api.Dict saved_settings]]}.

(** The settings file replaced by data that calls [sys.exit(3)]. *)
Definition exiting_files : gmap string (list instruction) :=
  {["/home/user/.config/gtg/plugins/hamster/settings" := [CallSysExit (PInt 3)]]}.

(** An editor API with two plugin widgets in its list. *)
Definition editor_api : api.Heap toolkit :=
  api.Build_Heap
    {| api.requester := PObj 2; api.view_manager := PObj 4;
       api.selection_changed_callback_listeners := [];
       api.ui := PObj 5; api.builder := PObj 6; api.task_id := PStr "a";
       api.taskwidget_id := 2; api.taskwidget_widg := [PObj 10; PObj 11] |}
    {| objects := <["vbox4" := PObj 7]> {["pluginbox" := PObj 8]};
       removed := []; stuck := None |}
    [].

(** Task objects are known by their id; the setters rewrite the task in
    the table, and dates are kept as the text they are given as. *)
Definition text_of (v : pyval) : string :=
  match v with
  | PStr s => s
  | _ => ""
  end.

Definition appended (l v : pyval) : pyval :=
  match l with
  | PList l | PDbusArray l _ => PList (l ++ [v])
  | _ => PList [v]
  end.

Definition update_task (f : dbuswrapper.Task string → dbuswrapper.Task string)
    (task : pyval) (w : world) : res pyval * world :=
  match task with
  | PStr i =>
      match tasks w !! i with
      | Some t => (Ok PNone, with_tasks (<[i := f t]> (tasks w)) w)
      | None => (Raise AttributeError, w)
      end
  | _ => (Raise AttributeError, w)
  end.

Definition new_task_object (tags : list pyval) : dbuswrapper.Task string :=
  {| dbuswrapper.get_id := PStr "new"; dbuswrapper.get_status := PStr "active";
     dbuswrapper.get_title := PStr "";
     dbuswrapper.get_due_date := ""; dbuswrapper.get_start_date := "";
     dbuswrapper.get_closed_date := "";
     dbuswrapper.get_tags_name := PList tags; dbuswrapper.get_text := PStr "";
     dbuswrapper.get_children := PList [] |}.

#[global] Instance table_task_objects : dbuswrapper.TaskObjects world string := {|
  dbuswrapper.req_get_task_object _ tid w :=
    (Ok (match lookup_task tid w with Some _ => tid | None => PNone end), w);
  dbuswrapper.req_new_task _ tags w :=
    (Ok (PStr "new"), with_tasks (<["new" := new_task_object tags]> (tasks w)) w);
  dbuswrapper.strtodate v w := (Ok v, w);
  dbuswrapper.task_set_status task status donedate :=
    update_task (λ t,
      {| dbuswrapper.get_id := dbuswrapper.get_id t;
         dbuswrapper.get_status := status;
         dbuswrapper.get_title := dbuswrapper.get_title t;
         dbuswrapper.get_due_date := dbuswrapper.get_due_date t;
         dbuswrapper.get_start_date := dbuswrapper.get_start_date t;
         dbuswrapper.get_closed_date := text_of donedate;
         dbuswrapper.get_tags_name := dbuswrapper.get_tags_name t;
         dbuswrapper.get_text := dbuswrapper.get_text t;
         dbuswrapper.get_children := dbuswrapper.get_children t |}) task;
  dbuswrapper.task_set_title task title :=
    update_task (λ t,
      {| dbuswrapper.get_id := dbuswrapper.get_id t;
         dbuswrapper.get_status := dbuswrapper.get_status t;
         dbuswrapper.get_title := title;
         dbuswrapper.get_due_date := dbuswrapper.get_due_date t;
         dbuswrapper.get_start_date := dbuswrapper.get_start_date t;
         dbuswrapper.get_closed_date := dbuswrapper.get_closed_date t;
         dbuswrapper.get_tags_name := dbuswrapper.get_tags_name t;
         dbuswrapper.get_text := dbuswrapper.get_text t;
         dbuswrapper.get_children := dbuswrapper.get_children t |}) task;
  dbuswrapper.task_set_due_date task d :=
    update_task (λ t,
      {| dbuswrapper.get_id := dbuswrapper.get_id t;
         dbuswrapper.get_status := dbuswrapper.get_status t;
         dbuswrapper.get_title := dbuswrapper.get_title t;
         dbuswrapper.get_due_date := text_of d;
         dbuswrapper.get_start_date := dbuswrapper.get_start_date t;
         dbuswrapper.get_closed_date := dbuswrapper.get_closed_date t;
         dbuswrapper.get_tags_name := dbuswrapper.get_tags_name t;
         dbuswrapper.get_text := dbuswrapper.get_text t;
         dbuswrapper.get_children := dbuswrapper.get_children t |}) task;
  dbuswrapper.task_set_start_date task d :=
    update_task (λ t,
      {| dbuswrapper.get_id := dbuswrapper.get_id t;
         dbuswrapper.get_status := dbuswrapper.get_status t;
         dbuswrapper.get_title := dbuswrapper.get_title t;
         dbuswrapper.get_due_date := dbuswrapper.get_due_date t;
         dbuswrapper.get_start_date := text_of d;
         dbuswrapper.get_closed_date := dbuswrapper.get_closed_date t;
         dbuswrapper.get_tags_name := dbuswrapper.get_tags_name t;
         dbuswrapper.get_text := dbuswrapper.get_text t;
         dbuswrapper.get_children := dbuswrapper.get_children t |}) task;
  dbuswrapper.task_set_text task text :=
    update_task (λ t,
      {| dbuswrapper.get_id := dbuswrapper.get_id t;
         dbuswrapper.get_status := dbuswrapper.get_status t;
         dbuswrapper.get_title := dbuswrapper.get_title t;
         dbuswrapper.get_due_date := dbuswrapper.get_due_date t;
         dbuswrapper.get_start_date := dbuswrapper.get_start_date t;
         dbuswrapper.get_closed_date := dbuswrapper.get_closed_date t;
         dbuswrapper.get_tags_name := dbuswrapper.get_tags_name t;
         dbuswrapper.get_text := text;
         dbuswrapper.get_children := dbuswrapper.get_children t |}) task;
  dbuswrapper.task_add_tag task tag :=
    update_task (λ t,
      {| dbuswrapper.get_id := dbuswrapper.get_id t;
         dbuswrapper.get_status := dbuswrapper.get_status t;
         dbuswrapper.get_title := dbuswrapper.get_title t;
         dbuswrapper.get_due_date := dbuswrapper.get_due_date t;
         dbuswrapper.get_start_date := dbuswrapper.get_start_date t;
         dbuswrapper.get_closed_date := dbuswrapper.get_closed_date t;
         dbuswrapper.get_tags_name := appended (dbuswrapper.get_tags_name t) tag;
         dbuswrapper.get_text := dbuswrapper.get_text t;
         dbuswrapper.get_children := dbuswrapper.get_children t |}) task;
  dbuswrapper.task_add_child task sub :=
    update_task (λ t,
      {| dbuswrapper.get_id := dbuswrapper.get_id t;
         dbuswrapper.get_status := dbuswrapper.get_status t;
         dbuswrapper.get_title := dbuswrapper.get_title t;
         dbuswrapper.get_due_date := dbuswrapper.get_due_date t;
         dbuswrapper.get_start_date := dbuswrapper.get_start_date t;
         dbuswrapper.get_closed_date := dbuswrapper.get_closed_date t;
         dbuswrapper.get_tags_name := dbuswrapper.get_tags_name t;
         dbuswrapper.get_text := dbuswrapper.get_text t;
         dbuswrapper.get_children := appended (dbuswrapper.get_children t) sub |}) task;
  dbuswrapper.task_read task w :=
    match lookup_task task w with
    | Some t => (Ok t, w)
    | None => (Raise AttributeError, w)
    end;
|}.

(** Task data that closes task "b" anew, and the same without a title. *)
Definition task_data_b : gmap string pyval :=
  <["status" := PStr "done"]> (<["donedate" := PStr "2013-04-03"]>
  (<["title" := PStr "Collect all data"]> (<["duedate" := PStr ""]>
  (<["startdate" := PStr ""]> (<["text" := PStr "see wiki"]>
  (<["tags" := PList [PStr "@home"]]> {["subtask" := PList []]})))))).

Definition task_data_untitled : gmap string pyval := delete "title" task_data_b.


(** Task "b" with the new done date only. *)
Definition task_b_reclosed : dbuswrapper.Task string :=
  {| dbuswrapper.get_id := PStr "b"; dbuswrapper.get_status := PStr "done";
     dbuswrapper.get_title := PStr "Collect data";
     dbuswrapper.get_due_date := ""; dbuswrapper.get_start_date := "";
     dbuswrapper.get_closed_date := "2013-04-03";
     dbuswrapper.get_tags_name := PList [PStr "@work"]; dbuswrapper.get_text := PStr "";
     dbuswrapper.get_children := PList [] |}.

(** The windows of the toolkit: one builder, an editor on task "a". *)
#[global] Instance table_windows : api.Windows toolkit := {|
  api.get_builder _ g := (Ok (PObj 6), g);
  api.taskeditor_get_task _ g := (Ok (PStr "a"), g);
  api.view_manager_browser _ g := (Ok (PObj 9), g);
  api.selection_connect_changed _ g := (Ok PNone, g);
|}.

End InMemory.

(** * Properties *)

(** ** Text *)

Section text_facts.
Import Py.

Lemma split_nonempty sep s : split sep s ≠ [].
Proof.
  destruct s as [|c s]; simpl; [done|].
  destruct (c =? sep)%N; [done|]. by destruct (split sep s).
Qed.

Lemma join_cons sep piece pieces :
  pieces ≠ [] → join sep (piece :: pieces) = piece ++ sep :: join sep pieces.
Proof. by destruct pieces. Qed.






Lemma encode_ascii_ignore_spec s :
  list_ascii_of_string (encode_ascii_ignore s)
  = map ascii_of_N (filter (λ c, (c < 128)%N) s).
Proof.
  induction s as [|c s IH]; simpl; [done|].
  rewrite filter_cons. destruct (N.ltb_spec c 128).
  - rewrite decide_True by done. simpl. by rewrite IH.
  - rewrite decide_False by lia. done.
Qed.

End text_facts.

(** ** dbuswrapper.py *)

Section dsanitize_facts.
Import Py dbuswrapper.

Lemma rebinds_false v : rebinds v = false → sanitized_value v = v.
Proof. by destruct v as [| | | |[|]|[|]|]. Qed.

Lemma empty_list_sanitized v :
  negb (truthy v) && isinstance_list v = true →
  sanitized_value v = PDbusArray [] "s".
Proof. by destruct v as [| | | |[|]|[|]|]; simpl; rewrite ?andb_false_r. Qed.

Lemma None_sanitized v :
  negb (truthy v) && isinstance_list v = false → py_eq v PNone = true →
  sanitized_value v = PStr "".
Proof. by destruct v. Qed.

Lemma sanitized_value_not_None v : sanitized_value v ≠ PNone.
Proof. by destruct v as [| | | |[|]|[|]|]. Qed.

Lemma sanitized_value_not_empty_list v : sanitized_value v ≠ PList [].
Proof. by destruct v as [| | | |[|]|[|]|]. Qed.

(** The loop of [dsanitize], started from any dict [acc]: the keys whose
    items it rebinds get the sanitized value, the others are read in
    [acc]. *)
Lemma dsanitize_fold (acc data : gmap string pyval) k :
  map_fold
    (λ k v data',
       if negb (truthy v) && isinstance_list v
       then <[k := PDbusArray [] "s"]> data'
       else if py_eq v PNone then <[k := PStr ""]> data' else data')
    acc data !! k
  = match data !! k with
    | Some v => if rebinds v then Some (sanitized_value v) else acc !! k
    | None => acc !! k
    end.
Proof.
  apply (map_fold_weak_ind (λ r m, r !! k =
    match m !! k with
    | Some v => if rebinds v then Some (sanitized_value v) else acc !! k
    | None => acc !! k
    end)).
  { by rewrite lookup_empty. }
  intros i x m r Hi IH.
  destruct (decide (i = k)) as [->|Hne].
  - rewrite lookup_insert_eq. unfold rebinds.
    destruct (negb (truthy x) && isinstance_list x) eqn:Hlist; simpl.
    { by rewrite lookup_insert_eq, empty_list_sanitized. }
    destruct (py_eq x PNone) eqn:Hnone.
    { by rewrite lookup_insert_eq, None_sanitized. }
    by rewrite IH, Hi.
  - rewrite lookup_insert_ne by done.
    destruct (negb (truthy x) && isinstance_list x); [by rewrite lookup_insert_ne|].
    destruct (py_eq x PNone); [by rewrite lookup_insert_ne|done].
Qed.

Lemma dsanitize_lookup (data : gmap string pyval) k :
  dsanitize data !! k = sanitized_value <$> data !! k.
Proof.
  unfold dsanitize. rewrite dsanitize_fold.
  destruct (data !! k) as [v|] eqn:E; simpl; [|done].
  destruct (rebinds v) eqn:R; [done|]. by rewrite rebinds_false.
Qed.

Lemma dsanitize_fmap (data : gmap string pyval) :
  dsanitize data = sanitized_value <$> data.
Proof. apply map_eq. intros k. by rewrite dsanitize_lookup, lookup_fmap. Qed.

End dsanitize_facts.

Section task_dict.
Import Py dbuswrapper.
Context `{Dates Date}.

(** C1.  [dsanitize] keeps the keys of the dict; an item that is an empty
    list (a plain one or a [dbus.Array]) becomes [dbus.Array([], "s")], an
    item that is [None] becomes the empty string, and any other item keeps
    its value.  Hence the dict [task_to_dict] builds of a task has no item
    that is [None] and none that is a plain empty list, and an accessor
    that gave an empty list shows as the typed empty array. *)
Theorem dsanitize_sanitizes (data : gmap string pyval) :
  dom (dsanitize data) = dom data
  ∧ (∀ k signature,
       data !! k = Some (PList []) ∨ data !! k = Some (PDbusArray [] signature) →
       dsanitize data !! k = Some (PDbusArray [] "s"))
  ∧ (∀ k, data !! k = Some PNone → dsanitize data !! k = Some (PStr ""))
  ∧ (∀ k v, data !! k = Some v → v ≠ PNone →
       isinstance_list v = false ∨ truthy v = true →
       dsanitize data !! k = Some v)
  ∧ (∀ (task : Task Date) k,
       task_to_dict task !! k ≠ Some PNone
       ∧ task_to_dict task !! k ≠ Some (PList []))
  ∧ (∀ task : Task Date,
       (get_tags_name task = PList [] →
        task_to_dict task !! "tags" = Some (PDbusArray [] "s"))
       ∧ (get_children task = PList [] →
          task_to_dict task !! "subtask" = Some (PDbusArray [] "s"))).
Proof.
  split_and!.
  - by rewrite dsanitize_fmap, dom_fmap_L.
  - intros k signature [Hk|Hk]; by rewrite dsanitize_lookup, Hk.
  - intros k Hk. by rewrite dsanitize_lookup, Hk.
  - intros k v Hk Hnone Hkeep. rewrite dsanitize_lookup, Hk. simpl. f_equal.
    apply rebinds_false. unfold rebinds.
    destruct v as [| | | |[|]|[|]|]; simpl in *;
      rewrite ?andb_false_r; try done; by destruct Hkeep.
  - intros task k. unfold task_to_dict. rewrite dsanitize_lookup.
    destruct (_ !! k) as [v|]; simpl; [|done].
    split; intros [=Hv].
    + by apply sanitized_value_not_None in Hv.
    + by apply sanitized_value_not_empty_list in Hv.
  - intros task. unfold task_to_dict. rewrite !dsanitize_lookup.
    split; intros Hempty; simplify_map_eq; by rewrite Hempty.
Qed.

(** C2.  The dict of a task has exactly the nine keys id, status, title,
    duedate, startdate, donedate, tags, text and subtask; six of them hold
    the sanitized results of the task's accessors, and the three dates
    hold the text [str] gives for the due, start and closed dates. *)
Theorem task_to_dict_fields (task : Task Date) :
  dom (task_to_dict task)
  = {["id"; "status"; "title"; "duedate"; "startdate"; "donedate";
      "tags"; "text"; "subtask"]}
  ∧ task_to_dict task !! "id" = Some (sanitized_value (get_id task))
  ∧ task_to_dict task !! "status" = Some (sanitized_value (get_status task))
  ∧ task_to_dict task !! "title" = Some (sanitized_value (get_title task))
  ∧ task_to_dict task !! "tags" = Some (sanitized_value (get_tags_name task))
  ∧ task_to_dict task !! "text" = Some (sanitized_value (get_text task))
  ∧ task_to_dict task !! "subtask" = Some (sanitized_value (get_children task))
  ∧ task_to_dict task !! "duedate" = Some (PStr (date_str (get_due_date task)))
  ∧ task_to_dict task !! "startdate" = Some (PStr (date_str (get_start_date task)))
  ∧ task_to_dict task !! "donedate" = Some (PStr (date_str (get_closed_date task))).
Proof.
  unfold task_to_dict. split_and!.
  - rewrite dsanitize_fmap, dom_fmap_L, !dom_insert_L, dom_empty_L. set_solver.
  - rewrite dsanitize_lookup. by simplify_map_eq.
  - rewrite dsanitize_lookup. by simplify_map_eq.
  - rewrite dsanitize_lookup. by simplify_map_eq.
  - rewrite dsanitize_lookup. by simplify_map_eq.
  - rewrite dsanitize_lookup. by simplify_map_eq.
  - rewrite dsanitize_lookup. by simplify_map_eq.
  - rewrite dsanitize_lookup. by simplify_map_eq.
  - rewrite dsanitize_lookup. by simplify_map_eq.
  - rewrite dsanitize_lookup. by simplify_map_eq.
Qed.

End task_dict.

Section wrapper_methods.
Import Py dbuswrapper.
Context {W Date : Type} `{!Dates Date, !Requester W Date, !ViewManager W}.
Context `{!Unicodedata}.

Lemma attr_run {A} (field : DBusTaskWrapper → A) (h : Heap W) :
  attr field h = (Ok (field (self h)), h).
Proof. done. Qed.

(** C3.  [get_tasks] calls [self.get_task_ids()] without the status
    string that method requires, so whatever the wrapper and the requester
    are the call raises [TypeError]; the requester is never reached and
    nothing changes. *)
Theorem get_tasks_raises (h : Heap W) : get_tasks h = (Raise TypeError, h).
Proof. reflexivity. Qed.


(** C7.  [has_task] gives what the requester's [has_task] gives for the
    same id; [delete_task] makes the requester's [delete_task] call for
    that id and returns [None]; [hide_task_browser] and
    [show_task_browser] make the view manager's [hide_browser] and
    [show_browser] calls and return [None].  In each case the world is
    the one that single call leaves, a raise of the call is passed on,
    and the wrapper's attributes are untouched. *)
Theorem pass_through_methods (tid : pyval) (h : Heap W) :
  (has_task tid h
   = let (r, w) := req_has_task (req (self h)) tid (world h) in
     (r, Build_Heap (self h) w))
  ∧ (delete_task tid h
     = let (r, w) := req_delete_task (req (self h)) tid (world h) in
       (match r with Ok _ => Ok PNone | Raise e => Raise e end,
        Build_Heap (self h) w))
  ∧ (hide_task_browser h
     = let (r, w) := vm_hide_browser (view_manager (self h)) (world h) in
       (match r with Ok _ => Ok PNone | Raise e => Raise e end,
        Build_Heap (self h) w))
  ∧ (show_task_browser h
     = let (r, w) := vm_show_browser (view_manager (self h)) (world h) in
       (match r with Ok _ => Ok PNone | Raise e => Raise e end,
        Build_Heap (self h) w))
  ∧ self (has_task tid h).2 = self h
  ∧ self (delete_task tid h).2 = self h
  ∧ self (hide_task_browser h).2 = self h
  ∧ self (show_task_browser h).2 = self h.
Proof.
  assert (Hhas : has_task tid h
    = let (r, w) := req_has_task (req (self h)) tid (world h) in
      (r, Build_Heap (self h) w)) by done.
  assert (Hdel : delete_task tid h
    = let (r, w) := req_delete_task (req (self h)) tid (world h) in
      (match r with Ok _ => Ok PNone | Raise e => Raise e end,
       Build_Heap (self h) w)).
  { unfold delete_task, mbind, M_bind, bind, ext. rewrite attr_run.
    by destruct (req_delete_task _ _ _) as [[?|?] ?]. }
  assert (Hhide : hide_task_browser h
    = let (r, w) := vm_hide_browser (view_manager (self h)) (world h) in
      (match r with Ok _ => Ok PNone | Raise e => Raise e end,
       Build_Heap (self h) w)).
  { unfold hide_task_browser, mbind, M_bind, bind, ext. rewrite attr_run.
    by destruct (vm_hide_browser _ _) as [[?|?] ?]. }
  assert (Hshow : show_task_browser h
    = let (r, w) := vm_show_browser (view_manager (self h)) (world h) in
      (match r with Ok _ => Ok PNone | Raise e => Raise e end,
       Build_Heap (self h) w)).
  { unfold show_task_browser, mbind, M_bind, bind, ext. rewrite attr_run.
    by destruct (vm_show_browser _ _) as [[?|?] ?]. }
  split_and!; try done.
  - rewrite Hhas. by destruct (req_has_task _ _ _).
  - rewrite Hdel. by destruct (req_delete_task _ _ _).
  - rewrite Hhide. by destruct (vm_hide_browser _ _).
  - rewrite Hshow. by destruct (vm_show_browser _ _).
Qed.

(** C8.  [get_active_tasks] does not read its argument: for any two tag
    lists it gives the same result and leaves the same world, those of
    [get_tasks_filtered(['active', 'workable'])]. *)
Theorem get_active_tasks_ignores_tags (tags1 tags2 : list pyval) (h : Heap W) :
  get_active_tasks tags1 h = get_active_tasks tags2 h
  ∧ get_active_tasks tags1 h
    = get_tasks_filtered [PStr "active"; PStr "workable"] h.
Proof. split; reflexivity. Qed.

End wrapper_methods.

(** ** api.py *)

Section accessors.
Import Py api.

(** C10.  Whatever the attributes of the API object are, [is_browser]
    gives the negation of what [is_editor] gives, so exactly one of the
    two holds. *)
Theorem is_browser_negates_is_editor (a : PluginAPI) :
  is_browser a = negb (is_editor a)
  ∧ xorb (is_browser a) (is_editor a) = true.
Proof. unfold is_browser. by destruct (is_editor a). Qed.

End accessors.

Section task_editor_widgets.
Import Py api.
Context {G : Type} `{!Gtk G}.

Lemma ext_log {A} (c : M G A) (h : Heap G) : log (ext c h).2 = log h.
Proof. unfold ext. by destruct (c (gtk h)). Qed.

Lemma taskwidget_widg_pop_log (i : pyval) (h : Heap G) :
  log (taskwidget_widg_pop i h).2 = log h.
Proof.
  unfold taskwidget_widg_pop, mbind, M_bind, bind, attr.
  by destruct (list_pop _ _) as [[w rest]|e].
Qed.

(** The statements under [try] write nothing to the log. *)
Lemma remove_widget_try_log (widg_id : pyval) (h : Heap G) :
  log (remove_widget_try widg_id h).2 = log h.
Proof.
  unfold remove_widget_try, mbind, M_bind, bind, attr.
  pose proof (ext_log (builder_get_object (builder (self h)) "vbox4") h) as Hget.
  destruct (ext _ h) as [[wi|e] h1]; simpl in *; [|done].
  destruct (truthy wi && py_in widg_id (taskwidget_widg (self h1))); [|done].
  pose proof (taskwidget_widg_pop_log widg_id h1) as Hpop.
  destruct (taskwidget_widg_pop widg_id h1) as [[w|e] h2]; simpl in *; [|congruence].
  pose proof (ext_log (container_remove wi w) h2) as Hrem.
  destruct (ext _ h2) as [[?|?] h3]; simpl in *; congruence.
Qed.

(** C6.  [remove_widget_from_taskeditor] returns [None] and never raises.
    When the API is not an editor API or the widget id is falsy, it
    changes nothing: neither the object, nor the toolkit, nor the log.
    Otherwise it runs the statements under [try]: when they raise, at the
    lookup of the box, at the [pop] or at the removal, the raise is caught
    and the only further effect is one more line in the log; when they do
    not raise, nothing is logged. *)
Theorem remove_widget_never_raises (widg_id : pyval) (h : Heap G) :
  (∃ h', remove_widget_from_taskeditor widg_id h = (Ok PNone, h'))
  ∧ (is_editor (self h) = false ∨ truthy widg_id = false →
     remove_widget_from_taskeditor widg_id h = (Ok PNone, h))
  ∧ (is_editor (self h) = true → truthy widg_id = true →
     match remove_widget_try widg_id h with
     | (Ok _, h') =>
         remove_widget_from_taskeditor widg_id h = (Ok PNone, h')
         ∧ log h' = log h
     | (Raise _, h') =>
         remove_widget_from_taskeditor widg_id h
         = (Ok PNone,
            Build_Heap (self h') (gtk h')
              (log h ++ ["Error removing the toolbar item in the TaskEditor:"]))
         ∧ log h' = log h
     end).
Proof.
  assert (Hret : ∀ h1 r h2, remove_widget_try widg_id h1 = (Ok r, h2) → r = PNone).
  { intros h1 r h2. unfold remove_widget_try, mbind, M_bind, bind, attr.
    destruct (ext _ h1) as [[wi|e] h3]; [|done].
    destruct (truthy wi && py_in widg_id _); [|by intros [= <- _]].
    destruct (taskwidget_widg_pop widg_id h3) as [[w|e] h4]; [|done].
    destruct (ext _ h4) as [[?|?] h5]; [|done]. by intros [= <- _]. }
  assert (Hskip : is_editor (self h) = false ∨ truthy widg_id = false →
    remove_widget_from_taskeditor widg_id h = (Ok PNone, h)).
  { intros Hno. unfold remove_widget_from_taskeditor, mbind, M_bind, bind, attr.
    simpl. by destruct Hno as [-> | ->]; rewrite ?andb_false_r. }
  assert (Hrun : is_editor (self h) = true → truthy widg_id = true →
    remove_widget_from_taskeditor widg_id h
    = try_except (remove_widget_try widg_id)
        (λ _, log_exception "Error removing the toolbar item in the TaskEditor:") h).
  { intros He Ht. unfold remove_widget_from_taskeditor, mbind, M_bind, bind, attr.
    simpl. by rewrite He, Ht. }
  split_and!; [|done|].
  - destruct (is_editor (self h)) eqn:He; [|by eauto].
    destruct (truthy widg_id) eqn:Ht; [|by eauto].
    rewrite Hrun by done. unfold try_except.
    destruct (remove_widget_try widg_id h) as [[r|e] h'] eqn:Hbody.
    + apply Hret in Hbody as ->. eauto.
    + unfold log_exception. eauto.
  - intros He Ht. rewrite Hrun by done. unfold try_except.
    pose proof (remove_widget_try_log widg_id h) as Hlog.
    destruct (remove_widget_try widg_id h) as [[r|e] h'] eqn:Hbody; simpl in Hlog.
    + apply Hret in Hbody as ->. done.
    + unfold log_exception. by rewrite Hlog.
Qed.

End task_editor_widgets.

Section configuration_files.
Import Py api.
Context {K F Bytes : Type} `{Countable K}.
Context `{!Dirs, !FileSystem F Bytes, !Pickle K Bytes}.

(** What the three statements under [try] do, by the outcome of reading
    and of unpickling. *)
Lemma load_configuration_object_unfold plugin_name filename default_values f :
  load_configuration_object plugin_name filename default_values f
  = match read_file (os_path_join (plugin_configuration_dir plugin_name) filename) f with
    | (Raise _, f') => (Returns (Ok (default ∅ default_values)), f')
    | (Ok data, f') =>
        match pickle_loads data with
        | Exits x => (Exits x, f')
        | Returns (Raise _) => (Returns (Ok (default ∅ default_values)), f')
        | Returns (Ok item) =>
            (Returns (Ok (dict_update item (default ∅ default_values)).2), f')
        end
    end.
Proof.
  unfold load_configuration_object, try_except_Exception, mbind, X_mbind, X_bind,
    no_exit, on_fs, on_config, mret, X_ret.
  replace (match default_values with Some d => d | None => ∅ end)
    with (default (∅ : gmap K pyval) default_values) by by destruct default_values.
  destruct (read_file _ f) as [[data|e] f']; [|done].
  destruct (pickle_loads data) as [[item|e]|x]; [|done|done].
  by destruct (dict_update item _) as [[[]|e] config].
Qed.

(** Storing the pairs of an iterable: the pairs before the first element
    that is not one are stored, in order, whether or not the call then
    raises. *)
Lemma update_from_pairs_stores elements (config : gmap K pyval) :
  (update_from_pairs elements config).2
  = foldl (λ c p, <[p.1 := p.2]> c) config (leading_pairs elements).
Proof.
  revert config. induction elements as [|[[k v]|] rest IH]; intros config; [done| |done].
  simpl. unfold mbind, M_bind, bind. rewrite <- IH.
  by destruct (update_from_pairs rest _) as [[?|?] ?].
Qed.

(** C5 (amended).  [load_configuration_object] never raises an instance
    of [Exception]: it returns a dict, or it ends in a raise outside
    [Exception], and it does so only when unpickling does.  When the file
    cannot be opened or read, or unpickling raises an [Exception], the
    dict is the default values (the empty dict when none are given).
    When unpickling gives a dict, the result is the default values
    updated with its items; when it gives another iterable, the default
    values updated with the pairs before its first element that is not a
    pair; when it gives an object that cannot be iterated, the default
    values. *)
Theorem load_configuration_object_outcomes
    (plugin_name filename : string) (default_values : option (gmap K pyval)) (f : F) :
  (∀ e f',
     load_configuration_object plugin_name filename default_values f
     ≠ (Returns (Raise e), f'))
  ∧ (∀ e f',
       read_file (os_path_join (plugin_configuration_dir plugin_name) filename) f
       = (Raise e, f') →
       load_configuration_object plugin_name filename default_values f
       = (Returns (Ok (default ∅ default_values)), f'))
  ∧ (∀ data f',
       read_file (os_path_join (plugin_configuration_dir plugin_name) filename) f
       = (Ok data, f') →
       match pickle_loads data with
       | Returns (Raise _) | Returns (Ok (Scalar _)) =>
           load_configuration_object plugin_name filename default_values f
           = (Returns (Ok (default ∅ default_values)), f')
       | Returns (Ok (Dict item)) =>
           load_configuration_object plugin_name filename default_values f
           = (Returns (Ok (item ∪ default ∅ default_values)), f')
           ∧ ∀ k, (item ∪ default ∅ default_values) !! k
                  = match item !! k with
                    | Some v => Some v
                    | None => default ∅ default_values !! k
                    end
       | Returns (Ok (Iterable elements)) =>
           load_configuration_object plugin_name filename default_values f
           = (Returns (Ok (foldl (λ c p, <[p.1 := p.2]> c)
                             (default ∅ default_values)
                             (leading_pairs elements))), f')
       | Exits x =>
           load_configuration_object plugin_name filename default_values f
           = (Exits x, f')
       end).
Proof.
  rewrite load_configuration_object_unfold. split_and!.
  - intros e f'. destruct (read_file _ f) as [[data|e'] f'']; [|done].
    by destruct (pickle_loads data) as [[item|e']|x].
  - by intros e f' ->.
  - intros data f' ->.
    destruct (pickle_loads data) as [[[item|elements|v]|e]|x]; try done.
    + split; [done|]. intros k. rewrite lookup_union.
      by destruct (item !! k), (default ∅ default_values !! k).
    + by rewrite <- update_from_pairs_stores.
Qed.


End configuration_files.

(** ** The methods at work in the small world *)

Section examples.
Import Py InMemory.


Example task_to_dict_task_a :
  map_to_list (dbuswrapper.task_to_dict task_a)
  ≡ₚ [("id", PStr "a"); ("status", PStr "active"); ("title", PStr "Write report");
      ("duedate", PStr "2013-05-01"); ("startdate", PStr ""); ("donedate", PStr "");
      ("tags", PDbusArray [] "s"); ("text", PStr ""); ("subtask", PList [PStr "b"])].
Proof. vm_compute. by solve_Permutation. Qed.

Example get_task_unknown_id :
  (dbuswrapper.get_task (PStr "zz") two_tasks).1 = Raise AttributeError.
Proof. reflexivity. Qed.

Example get_tasks_two_tasks :
  dbuswrapper.get_tasks two_tasks = (Raise TypeError, two_tasks).
Proof. reflexivity. Qed.

(** "activé , done": two statuses, read as "active" and "done". *)
Example get_task_ids_two_statuses :
  (dbuswrapper.get_task_ids
     [97; 99; 116; 105; 118; 233; 32; 44; 32; 100; 111; 110; 101]%N two_tasks).1
  = Ok [PStr "a"; PStr "b"].
Proof. vm_compute. reflexivity. Qed.

Example split_keeps_empty_pieces :
  split comma [44; 44; 120]%N = [[]; []; [120%N]].
Proof. reflexivity. Qed.

Example has_task_then_delete_task :
  (dbuswrapper.has_task (PStr "a") two_tasks).1 = Ok (PBool true)
  ∧ (dbuswrapper.has_task (PStr "a")
       (dbuswrapper.delete_task (PStr "a") two_tasks).2).1 = Ok (PBool false).
Proof. split; vm_compute; reflexivity. Qed.

(** The id [add_widget_to_taskeditor] gave is not an element of the
    widget list. *)
Example remove_widget_by_id :
  api.remove_widget_from_taskeditor (PInt 1) editor_api = (Ok PNone, editor_api).
Proof. reflexivity. Qed.

(** A widget of the list is found in it, is not an index for [pop], and
    the [TypeError] ends in the log. *)
Example remove_widget_by_widget :
  (api.remove_widget_from_taskeditor (PObj 10) editor_api).1 = Ok PNone
  ∧ api.log (api.remove_widget_from_taskeditor (PObj 10) editor_api).2
    = ["Error removing the toolbar item in the TaskEditor:"]
  ∧ api.self (api.remove_widget_from_taskeditor (PObj 10) editor_api).2
    = api.self editor_api.
Proof. split_and!; reflexivity. Qed.

(** C5, as first stated, fails here: the settings file holds data that
    calls [sys.exit(3)] when unpickled; [SystemExit] is not an instance
    of [Exception], the handler lets it through, and
    [load_configuration_object] raises it instead of returning the
    default values. *)
Lemma load_configuration_object_exits :
  api.load_configuration_object "hamster" "settings" (Some default_settings)
    exiting_files
  = (Exits (SystemExit (PInt 3)), exiting_files)
  ∧ (api.load_configuration_object "hamster" "settings" (Some default_settings)
       exiting_files).1
    ≠ Returns (Ok default_settings).
Proof. split; [vm_compute; reflexivity|]. vm_compute. discriminate. Qed.

Example load_configuration_object_no_file :
  (api.load_configuration_object "hamster" "settings" (Some default_settings)
     (∅ : gmap string (list (api.pyobj string)))).1
  = Returns (Ok default_settings).
Proof. reflexivity. Qed.

(** A pickled list whose second element is not a pair: the first pair is
    stored before [update] raises, and stays. *)
Example load_configuration_object_half_updated :
  (api.load_configuration_object "hamster" "settings" None
     ({["/home/user/.config/gtg/plugins/hamster/settings"
        := [api.Iterable [Some ("size", PInt 4); None; Some ("color", PStr "red")]]]}
      : gmap string (list (api.pyobj string)))).1
  = Returns (Ok {["size" := PInt 4]}).
Proof. vm_compute. reflexivity. Qed.

End examples.

(** * Further properties of the two files *)

(** ** Running a computation backwards from its result *)

Section monad_inversion.
Import Py dbuswrapper.
Context {S : Type}.

Lemma Ok_pair_inj {A} (a b : A) (s t : S) :
  (Ok a, s) = (Ok b, t) → a = b ∧ s = t.
Proof. by intros [= -> ->]. Qed.

Lemma bind_Ok_inv {A B} (c : M S A) (k : A → M S B) s b s' :
  (c ≫= k) s = (Ok b, s') → ∃ a s1, c s = (Ok a, s1) ∧ k a s1 = (Ok b, s').
Proof.
  unfold mbind, M_bind, bind. destruct (c s) as [[a|e] s1]; [by eauto|].
  intros Heq. exfalso. by apply (f_equal fst) in Heq.
Qed.



End monad_inversion.

(** ** dbuswrapper.py *)

Section task_dict_facts.
Import Py dbuswrapper.

Lemma sanitized_value_idemp v :
  sanitized_value (sanitized_value v) = sanitized_value v.
Proof. by destruct v as [| | | |[|]|[|]|]. Qed.

(** X1.  Sanitizing a dict twice gives what sanitizing it once gives. *)
Theorem dsanitize_idempotent (data : gmap string pyval) :
  dsanitize (dsanitize data) = dsanitize data.
Proof.
  rewrite !dsanitize_fmap, <- map_fmap_compose.
  apply map_fmap_ext. intros k v _. apply sanitized_value_idemp.
Qed.

Context `{Dates Date}.

Lemma task_to_dict_ok (task : Task Date) : task_dict_ok (task_to_dict task).
Proof.
  split.
  - unfold task_to_dict.
    rewrite dsanitize_fmap, dom_fmap_L, !dom_insert_L, dom_empty_L. set_solver.
  - intros k. unfold task_to_dict. rewrite dsanitize_lookup.
    destruct (_ !! k) as [v|]; [|done]. cbn [fmap option_fmap option_map].
    split; intros Hv%(inj Some).
    + by apply sanitized_value_not_None in Hv.
    + by apply sanitized_value_not_empty_list in Hv.
Qed.

End task_dict_facts.

Section reading_tasks.
Import Py dbuswrapper.
Context {W Date : Type} `{!Dates Date, !Requester W Date, !ViewManager W}.
Context `{!Unicodedata}.

Lemma get_task_Ok tid (h h' : Heap W) d :
  get_task tid h = (Ok d, h') →
  task_dict_ok d ∧ self h' = self h
  ∧ ∃ task, req_get_task (req (self h)) tid (world h) = (Ok (Some task), world h')
            ∧ d = task_to_dict task.
Proof.
  unfold get_task, mbind, M_bind, bind, attr, ext. cbv beta iota.
  destruct (req_get_task _ _ _) as [[[task|]|e] w];
    [|intros [=]|intros [=]].
  unfold mret, M_ret, ret. intros [<- <-]%Ok_pair_inj.
  split; [apply task_to_dict_ok|].
  split; [reflexivity|]. exists task. split; reflexivity.
Qed.

(** X2.  A dict [get_task] returns is the dict of the task the requester
    gave for that id: it has the nine keys, no item [None] and no plain
    empty list, and the wrapper's attributes are as before.  When the
    requester has no task for the id and gives [None], [get_task] raises
    [AttributeError], in the world the requester's call left. *)
Theorem get_task_result tid (h : Heap W) :
  (∀ d h', get_task tid h = (Ok d, h') →
     task_dict_ok d ∧ self h' = self h
     ∧ ∃ task, req_get_task (req (self h)) tid (world h) = (Ok (Some task), world h')
               ∧ d = task_to_dict task)
  ∧ (∀ w, req_get_task (req (self h)) tid (world h) = (Ok None, w) →
       get_task tid h = (Raise AttributeError, Build_Heap (self h) w)).
Proof.
  split.
  - intros d h'. apply get_task_Ok.
  - intros w Hw. unfold get_task, mbind, M_bind, bind, attr, ext. cbv beta iota.
    rewrite Hw. reflexivity.
Qed.

Lemma for_each_get_task_Ok ids (h h' : Heap W) dicts :
  for_each get_task ids h = (Ok dicts, h') →
  List.length dicts = List.length ids ∧ Forall task_dict_ok dicts ∧ self h' = self h.
Proof.
  revert h dicts. induction ids as [|tid ids IH]; intros h dicts; simpl.
  - by intros [<- <-]%Ok_pair_inj.
  - unfold mbind, M_bind, bind.
    destruct (get_task tid h) as [[d|e] h1] eqn:Hd; [|done].
    destruct (for_each get_task ids h1) as [[ds|e] h2] eqn:Hds; [|done].
    intros [<- <-]%Ok_pair_inj.
    apply get_task_Ok in Hd as (Hok & Hself & _).
    apply IH in Hds as (Hlen & Hall & Hself').
    split_and!; [by rewrite length_cons, Hlen|by constructor|congruence].
Qed.

Lemma for_do_ext_self {A B} (f : A → M W B) (l : list A) (h : Heap W) :
  self (for_do (λ x, ext (f x)) l h).2 = self h.
Proof.
  revert h. induction l as [|x l IH]; intros h; simpl; [done|].
  unfold mbind, M_bind, bind, ext.
  destruct (f x (world h)) as [[b|e] w]; simpl; [|done].
  by rewrite IH.
Qed.

(** X3.  What [get_tasks_filtered] returns follows the ids the filtered
    tree lists: for no id, [dbus.Array([], "s")] and nothing further is
    done; otherwise one dict per id, each with the nine keys, no item
    [None] and no plain empty list, never an empty list of dicts.  The
    wrapper's attributes are as before. *)
Theorem get_tasks_filtered_shape (filters : list pyval) (h : Heap W) r h' :
  get_tasks_filtered filters h = (Ok r, h') →
  ∃ keys h1, get_task_ids_filtered filters h = (Ok keys, h1)
    ∧ self h' = self h
    ∧ match r with
      | TaskDicts dicts =>
          keys ≠ [] ∧ List.length dicts = List.length keys
          ∧ Forall task_dict_ok dicts
      | EmptyArray signature => keys = [] ∧ signature = "s" ∧ h' = h1
      end.
Proof.
  unfold get_tasks_filtered, mbind, M_bind, bind.
  destruct (get_task_ids_filtered filters h) as [[keys|e] h1] eqn:Hkeys; [|done].
  assert (self h1 = self h) as Hself.
  { revert Hkeys. unfold get_task_ids_filtered, mbind, M_bind, bind, attr.
    destruct (ext (req_get_custom_tasks_tree _) h) as [[tree|e] h2] eqn:Htree; [|done].
    assert (self h2 = self h) as <-.
    { revert Htree. unfold ext. destruct (req_get_custom_tasks_tree _ _).
      by intros [= _ <-]. }
    pose proof (for_do_ext_self (tree_apply_filter tree) filters h2) as Hdo.
    destruct (for_do _ filters h2) as [[[]|e] h3]; [|done]. simpl in Hdo.
    unfold ext. destruct (tree_get_all_keys tree (world h3)). intros [= _ <-]. done. }
  destruct keys as [|key keys].
  - intros [<- <-]%Ok_pair_inj. exists [], h1. done.
  - destruct (for_each get_task (key :: keys) h1) as [[dicts|e] h2] eqn:Hdicts; [|done].
    intros [<- <-]%Ok_pair_inj. apply for_each_get_task_Ok in Hdicts as (Hlen & Hall & Hself').
    exists (key :: keys), h1. split_and!; [done|congruence|done|done|done].
Qed.

End reading_tasks.

Section more_text_facts.
Import Py.

Lemma split_length sep s :
  List.length (split sep s) = S (List.length (List.filter (N.eqb sep) s)).
Proof.
  induction s as [|c s IH]; simpl; [done|].
  rewrite (N.eqb_sym sep c). destruct (c =? sep)%N; simpl; [by rewrite IH|].
  pose proof (split_nonempty sep s) as Hne.
  destruct (split sep s) as [|piece pieces]; [done|]. simpl in *. done.
Qed.

Lemma encode_ascii_ignore_ascii s c :
  In c (list_ascii_of_string (encode_ascii_ignore s)) → (N_of_ascii c < 128)%N.
Proof.
  rewrite encode_ascii_ignore_spec, in_map_iff.
  intros (n & <- & Hn%list_elem_of_In%list_elem_of_filter). destruct Hn as [Hn _].
  rewrite N_ascii_embedding; lia.
Qed.

(** Splitting what [join] put together gives the pieces back, when there
    is at least one piece and no piece holds the separator. *)
Lemma split_join sep pieces :
  pieces ≠ [] → Forall (λ piece, sep ∉ piece) pieces →
  split sep (join sep pieces) = pieces.
Proof.
  assert (Hpiece : ∀ piece rest, sep ∉ piece →
    split sep (piece ++ sep :: rest) = piece :: split sep rest).
  { induction piece as [|c piece IH]; intros rest Hsep; simpl.
    - by rewrite N.eqb_refl.
    - apply not_elem_of_cons in Hsep as [Hc Hsep].
      destruct (N.eqb_spec c sep) as [->|_]; [done|]. by rewrite IH. }
  assert (Hlast : ∀ piece, sep ∉ piece → split sep piece = [piece]).
  { induction piece as [|c piece IH]; intros Hsep; simpl; [done|].
    apply not_elem_of_cons in Hsep as [Hc Hsep].
    destruct (N.eqb_spec c sep) as [->|_]; [done|]. by rewrite IH. }
  induction pieces as [|piece pieces IH]; [done|].
  intros _ Hall. inversion Hall as [|? ? Hsep Hrest]; subst.
  destruct pieces as [|piece' pieces]; [by apply Hlast|].
  rewrite join_cons by done. rewrite Hpiece by done. by rewrite IH.
Qed.

Lemma lstrip_spaces before s :
  forallb is_space before = true → lstrip (before ++ s) = lstrip s.
Proof.
  induction before as [|c before IH]; simpl; [done|].
  intros [-> Hb]%andb_true_iff. by apply IH.
Qed.

Lemma lstrip_app s after :
  lstrip s ≠ [] → lstrip (s ++ after) = lstrip s ++ after.
Proof.
  induction s as [|c s IH]; simpl; [done|].
  destruct (is_space c); [done|]. done.
Qed.

Lemma lstrip_all_space s : lstrip s = [] → forallb is_space s = true.
Proof.
  induction s as [|c s IH]; simpl; [done|].
  destruct (is_space c); [done|]. done.
Qed.

Lemma lstrip_of_spaces s : forallb is_space s = true → lstrip s = [].
Proof. intros Hs. rewrite <- (app_nil_r s). by rewrite lstrip_spaces. Qed.

Lemma rstrip_spaces s after :
  forallb is_space after = true → rstrip (s ++ after) = rstrip s.
Proof.
  intros Ha. unfold rstrip. rewrite rev_app_distr, lstrip_spaces; [done|].
  rewrite forallb_forall in *. intros c Hc%in_rev. by apply Ha.
Qed.

(** White space around a text does not change what [strip] keeps. *)
Lemma strip_padding before s after :
  forallb is_space before = true → forallb is_space after = true →
  strip (before ++ s ++ after) = strip s.
Proof.
  intros Hb Ha. unfold strip. rewrite lstrip_spaces by done.
  destruct (lstrip s) as [|c s'] eqn:Hs.
  - rewrite lstrip_of_spaces; [done|].
    rewrite forallb_app, Ha, andb_true_r. by apply lstrip_all_space.
  - rewrite lstrip_app by by rewrite Hs. rewrite Hs. by apply rstrip_spaces.
Qed.

Lemma space_not_comma s : forallb is_space s = true → comma ∉ s.
Proof.
  rewrite forallb_forall. intros Hs Hc%list_elem_of_In. by apply Hs in Hc.
Qed.

End more_text_facts.

Section status_strings.
Import Py dbuswrapper.
Context {W Date : Type} `{!Dates Date, !Requester W Date, !ViewManager W}.
Context `{!Unicodedata}.

(** X4.  The status list [get_task_ids] hands to the requester has one
    status more than the status string has commas, so it is never empty
    (the empty string gives one status), and every status is made of
    ASCII characters only. *)
Theorem get_task_ids_status_list (status_string : list N) (h : Heap W) :
  get_task_ids status_string h
  = ext (req_get_tasks_list (req (self h)) (status_list status_string)) h
  ∧ List.length (status_list status_string)
    = S (List.length (List.filter (N.eqb comma) status_string))
  ∧ Forall (λ status, ∀ c, In c (list_ascii_of_string status) → (N_of_ascii c < 128)%N)
      (status_list status_string).
Proof.
  split_and!.
  - reflexivity.
  - unfold status_list. by rewrite !length_map, split_length.
  - unfold status_list. apply Forall_map, Forall_map, Forall_true.
    intros piece c. apply encode_ascii_ignore_ascii.
Qed.

(** X5.  White space around the statuses of a status string does not
    count: [get_task_ids] does the same on the statuses joined by commas
    as on the statuses each padded with white space and then joined. *)
Theorem get_task_ids_ignores_padding (pieces : list (list N * list N * list N))
    (h : Heap W) :
  pieces ≠ [] →
  Forall (λ p, forallb is_space (p.1.1) = true ∧ (comma ∉ p.1.2)
               ∧ forallb is_space (p.2) = true) pieces →
  get_task_ids (join comma (map padded pieces)) h
  = get_task_ids (join comma (map (λ p, p.1.2) pieces)) h.
Proof.
  intros Hne Hall.
  enough (Heq : status_list (join comma (map padded pieces))
                = status_list (join comma (map (λ p, p.1.2) pieces))).
  { unfold status_list in Heq. unfold get_task_ids. by rewrite Heq. }
  unfold status_list. f_equal.
  rewrite !split_join.
  - rewrite !map_map. apply map_ext_Forall. eapply Forall_impl; [exact Hall|].
    intros [[before s] after] (Hb & _ & Ha). by apply strip_padding.
  - by destruct pieces.
  - apply Forall_map. eapply Forall_impl; [exact Hall|]. by intros p (_ & ? & _).
  - by destruct pieces.
  - apply Forall_map. eapply Forall_impl; [exact Hall|].
    intros [[before s] after] (Hb & Hs & Ha). unfold padded. simpl in *.
    rewrite !elem_of_app.
    intros [Hin|[Hin|Hin]];
      [by apply (space_not_comma before)|done|by apply (space_not_comma after)].
Qed.

End status_strings.

Section changing_tasks.
Import Py dbuswrapper.
Context {W Date : Type} `{!Dates Date, !TaskObjects W Date}.


(** X7.  [modify_task] is not all or nothing: with task data that has a
    status and a done date but no title, the status of the task is set,
    and then the call raises [KeyError], in the world the setter left. *)
Theorem modify_task_half_done tid (task_data : gmap string pyval) (h : Heap W)
    task status donedate w1 x w2 :
  req_get_task_object (req (self h)) tid (world h) = (Ok task, w1) →
  task ≠ PNone →
  task_data !! "status" = Some status →
  task_data !! "donedate" = Some donedate →
  task_set_status task status donedate w1 = (Ok x, w2) →
  task_data !! "title" = None →
  modify_task tid task_data h
  = (Raise (OtherError "KeyError"), Build_Heap (self h) w2).
Proof.
  intros Hget Htask Hs Hd Hset Ht.
  unfold modify_task, mbind, M_bind, bind, attr, ext, getitem. cbv beta iota.
  rewrite Hget. cbn [self world].
  destruct task; try done; cbn [call_method]; rewrite Hs, Hd; unfold ret;
    cbn [self world]; rewrite Hset; cbn [self world]; by rewrite Ht.
Qed.

(** X8.  The dict [new_task] returns has the nine keys of a task dict, no
    item [None] and no plain empty list. *)
Theorem new_task_dict status title duedate startdate donedate tags text subtasks
    (h h' : Heap W) d :
  new_task status title duedate startdate donedate tags text subtasks h = (Ok d, h') →
  task_dict_ok d.
Proof.
  unfold new_task.
  intros (r & h0 & _ & Hrun)%bind_Ok_inv.
  do 7 (apply bind_Ok_inv in Hrun as (? & ? & _ & Hrun)).
  apply bind_Ok_inv in Hrun as (t & ? & _ & Hret).
  apply Ok_pair_inj in Hret as [<- _]. apply task_to_dict_ok.
Qed.

End changing_tasks.

(** ** api.py *)

Section py_eq_facts.
Import Py.

Lemma pyval_nested_ind (P : pyval → Prop) :
  P PNone → (∀ b, P (PBool b)) → (∀ z, P (PInt z)) → (∀ s, P (PStr s)) →
  (∀ l, Forall P l → P (PList l)) →
  (∀ l signature, Forall P l → P (PDbusArray l signature)) →
  (∀ i, P (PObj i)) →
  ∀ v, P v.
Proof.
  intros HNone HBool HInt HStr HList HArray HObj.
  fix IH 1. intros [| b | z | s | l | l signature | i].
  - exact HNone.
  - apply HBool.
  - apply HInt.
  - apply HStr.
  - apply HList. induction l as [|x l IHl]; constructor; [apply IH|exact IHl].
  - apply HArray. induction l as [|x l IHl]; constructor; [apply IH|exact IHl].
  - apply HObj.
Qed.

Lemma py_eq_refl v : py_eq v v = true.
Proof.
  induction v as [| b | z | s | l IH | l signature IH | i] using pyval_nested_ind; simpl.
  - done.
  - by destruct b.
  - apply Z.eqb_refl.
  - apply String.eqb_refl.
  - induction IH as [|x l Hx _ IHl]; [done|]. by rewrite Hx, IHl.
  - induction IH as [|x l Hx _ IHl]; [done|]. by rewrite Hx, IHl.
  - apply Pos.eqb_refl.
Qed.

Lemma py_in_elem_of x l : x ∈ l → py_in x l = true.
Proof.
  unfold py_in. intros Hx. apply existsb_exists. exists x.
  split; [by apply list_elem_of_In|apply py_eq_refl].
Qed.

Lemma py_in_snoc x l : py_in x (l ++ [x]) = true.
Proof. apply py_in_elem_of. set_solver. Qed.

Lemma py_in_objects x l :
  Forall api.is_object l → py_in x l = true → ∃ i, x = PObj i ∧ PObj i ∈ l.
Proof.
  unfold py_in. intros Hall (y & Hy & Heq)%existsb_exists.
  apply list_elem_of_In in Hy. rewrite Forall_forall in Hall.
  destruct (Hall y Hy) as [i ->].
  destruct x; simpl in Heq; try done.
  apply Pos.eqb_eq in Heq as ->. eauto.
Qed.

Lemma list_pop_length l i x rest :
  list_pop l i = Ok (x, rest) → S (List.length rest) = List.length l.
Proof.
  assert (Hat : ∀ z,
    (let z' := if z <? 0 then z + Z.of_nat (List.length l) else z in
     if z' <? 0 then Raise IndexError
     else match l !! Z.to_nat z' with
          | Some x => Ok (x, take (Z.to_nat z') l ++ drop (S (Z.to_nat z')) l)
          | None => Raise IndexError
          end) = Ok (x, rest) → S (List.length rest) = List.length l).
  { intros z. cbv zeta. destruct (_ <? 0); [done|].
    destruct (l !! _) as [y|] eqn:Hy; [|done]. intros [= _ <-].
    apply lookup_lt_Some in Hy.
    rewrite length_app, length_take, length_drop. lia. }
  unfold list_pop. destruct i; try done; apply Hat.
Qed.

Lemma list_pop_out_of_range l z :
  Z.of_nat (List.length l) ≤ z → list_pop l (PInt z) = Raise IndexError.
Proof.
  intros Hz. unfold list_pop.
  destruct (Z.ltb_spec z 0); [lia|]. destruct (Z.ltb_spec z 0); [lia|].
  rewrite lookup_ge_None_2; [done|]. lia.
Qed.

End py_eq_facts.

Section selection_callbacks.
Import Py api.
Context {G : Type} `{!Classes}.

(** X9.  Registering a selection callback a second time changes
    nothing.  After a registration the callback is in the list, the
    callbacks that were there are still there in the same order, with at
    most the new one after them, and a list without repetition stays
    without repetition. *)
Theorem set_active_selection_changed_callback_once (func : pyval) (h : Heap G) :
  let h1 := (set_active_selection_changed_callback func h).2 in
  set_active_selection_changed_callback func h1 = (Ok PNone, h1)
  ∧ py_in func (selection_changed_callback_listeners (self h1)) = true
  ∧ (∃ added, selection_changed_callback_listeners (self h1)
              = selection_changed_callback_listeners (self h) ++ added
              ∧ (added = [] ∨ added = [func]))
  ∧ (NoDup (selection_changed_callback_listeners (self h)) →
     NoDup (selection_changed_callback_listeners (self h1))).
Proof.
  unfold set_active_selection_changed_callback, mbind, M_bind, bind, attr, set_attr.
  cbv zeta.
  destruct (py_in func (selection_changed_callback_listeners (self h))) eqn:Hin; simpl.
  - rewrite Hin. simpl. split_and!; [done|done| |done].
    exists []. by rewrite app_nil_r; auto.
  - rewrite py_in_snoc. simpl. split_and!; [done|done|by eauto|].
    intros Hnd. apply NoDup_app. split_and!; [done| |apply NoDup_singleton].
    intros x Hx ->%list_elem_of_singleton.
    apply py_in_elem_of in Hx. congruence.
Qed.

(** X10.  After [remove_active_selection_changed_callback] the list
    holds the callbacks whose class is not the given one, and only them,
    in the order they had; removing the same class again changes
    nothing. *)
Theorem remove_active_selection_changed_callback_filters
    (plugin_class : pyval) (h : Heap G) :
  let h1 := (remove_active_selection_changed_callback plugin_class h).2 in
  (remove_active_selection_changed_callback plugin_class h).1 = Ok PNone
  ∧ (∀ func, func ∈ selection_changed_callback_listeners (self h1) ↔
       func ∈ selection_changed_callback_listeners (self h)
       ∧ py_eq (class_of func) plugin_class = false)
  ∧ selection_changed_callback_listeners (self h1)
    `sublist_of` selection_changed_callback_listeners (self h)
  ∧ remove_active_selection_changed_callback plugin_class h1 = (Ok PNone, h1).
Proof.
  unfold remove_active_selection_changed_callback, mbind, M_bind, bind, attr, set_attr.
  cbv zeta. simpl. split_and!.
  - done.
  - intros func. rewrite !list_elem_of_In, filter_In, negb_true_iff. done.
  - induction (selection_changed_callback_listeners (self h)) as [|x l IH]; simpl; [done|].
    destruct (negb _); [by apply sublist_skip|by apply sublist_cons].
  - f_equal. unfold set_listeners. simpl. f_equal. f_equal.
    induction (selection_changed_callback_listeners (self h)) as [|x l IH]; simpl; [done|].
    destruct (negb _) eqn:Hx; simpl; [by rewrite Hx, IH|done].
Qed.

End selection_callbacks.

Section more_task_editor_widgets.
Import Py api.
Context {G : Type} `{!Gtk G}.

(** X11.  [add_widget_to_taskeditor] never writes to the log.  When it
    returns, either there is no plugin box, the result is [None] and the
    object is unchanged, or the result is the id counter plus one, the
    counter is now that id and the widget is the last of the list; the
    id is then out of range as an index of the list, so [pop] of it
    raises [IndexError] (given that no more widgets are listed than ids
    were handed out).  When it raises, the object is unchanged. *)
Theorem add_widget_to_taskeditor_outcomes (widget : pyval) (h : Heap G) :
  (∀ r h', add_widget_to_taskeditor widget h = (Ok r, h') →
     log h' = log h
     ∧ ((r = PNone ∧ self h' = self h)
        ∨ (r = PInt (taskwidget_id (self h) + 1)
           ∧ taskwidget_id (self h') = taskwidget_id (self h) + 1
           ∧ taskwidget_widg (self h') = taskwidget_widg (self h) ++ [widget]
           ∧ (widget_count_ok (self h) → widget_count_ok (self h'))
           ∧ (widget_count_ok (self h) →
              list_pop (taskwidget_widg (self h')) r = Raise IndexError))))
  ∧ (∀ e h', add_widget_to_taskeditor widget h = (Raise e, h') →
       self h' = self h ∧ log h' = log h).
Proof.
  unfold add_widget_to_taskeditor, mbind, M_bind, bind, attr, set_attr, ext.
  cbv beta iota.
  destruct (builder_get_object _ _ _) as [[vbox|e] g1]; [|split; by intros ? ? [=]; subst].
  destruct (truthy vbox).
  2:{ split; [|by intros ? ? [=]]. intros r h' [= <- <-]. simpl. auto. }
  simpl.
  destruct (box_pack_start _ _ _) as [[?|e] g2]; simpl; [|split; by intros ? ? [=]; subst].
  destruct (box_reorder_child _ _ _ _) as [[?|e] g3]; simpl; [|split; by intros ? ? [=]; subst].
  destruct (widget_show_all _ _) as [[?|e] g4]; simpl; [|split; by intros ? ? [=]; subst].
  split; [|by intros ? ? [=]]. intros r h' [= <- <-].
  cbn [self log taskwidget_id taskwidget_widg set_taskwidget_id set_taskwidget_widg].
  split; [done|]. right. unfold widget_count_ok.
  split_and!; try done.
  - unfold set_taskwidget_widg, set_taskwidget_id. cbn [taskwidget_id taskwidget_widg].
    rewrite length_app, length_cons, length_nil. lia.
  - intros Hok. apply list_pop_out_of_range.
    rewrite length_app, length_cons, length_nil. lia.
Qed.

(** X12.  With a widget list of objects, as GTK widgets are,
    [remove_widget_from_taskeditor] removes nothing, whatever it is
    given: an id is not an element of the list, and a widget of the list
    is not an index for [pop].  The object is unchanged and the toolkit
    is as it was, or as the lookup of the box left it. *)
Theorem remove_widget_removes_nothing (widg_id : pyval) (h : Heap G) :
  Forall is_object (taskwidget_widg (self h)) →
  ∃ h', remove_widget_from_taskeditor widg_id h = (Ok PNone, h')
    ∧ self h' = self h
    ∧ (gtk h' = gtk h
       ∨ gtk h' = (builder_get_object (builder (self h)) "vbox4" (gtk h)).2).
Proof.
  intros Hobj.
  unfold remove_widget_from_taskeditor, mbind, M_bind, bind, attr, id. cbv beta iota.
  destruct (is_editor (self h) && truthy widg_id);
    [|exists h; split_and!; [reflexivity|reflexivity|by left]].
  unfold try_except, remove_widget_try, mbind, M_bind, bind, attr, ext. cbv beta iota.
  destruct (builder_get_object _ _ _) as [[wi|e] g1]; cbn [self gtk log snd].
  2:{ unfold log_exception. cbn [self gtk log].
      eexists. split_and!; [reflexivity|reflexivity|by right]. }
  destruct (truthy wi && py_in widg_id (taskwidget_widg (self h))) eqn:Hin.
  2:{ eexists. split_and!; [reflexivity|reflexivity|by right]. }
  apply andb_true_iff in Hin as [_ Hin].
  apply py_in_objects in Hin as (i & -> & _); [|done].
  unfold taskwidget_widg_pop, mbind, M_bind, bind, attr. cbn [self list_pop].
  unfold log_exception. cbn [self gtk log].
  eexists. split_and!; [reflexivity|reflexivity|by right].
Qed.

(** X13.  Both task-editor methods keep the widget list no longer than
    the number of ids handed out. *)
Theorem widget_count_kept (v : pyval) (h : Heap G) :
  widget_count_ok (self h) →
  widget_count_ok (self (add_widget_to_taskeditor v h).2)
  ∧ widget_count_ok (self (remove_widget_from_taskeditor v h).2).
Proof.
  intros Hok. split.
  - unfold add_widget_to_taskeditor, mbind, M_bind, bind, attr, set_attr, ext.
    cbv beta iota.
    destruct (builder_get_object _ _ _) as [[vbox|e] g1]; [|done].
    destruct (truthy vbox); [|done]. cbn [self gtk log].
    destruct (box_pack_start _ _ _) as [[?|e] g2]; [|done]. cbn [self gtk log].
    destruct (box_reorder_child _ _ _ _) as [[?|e] g3]; [|done]. cbn [self gtk log].
    destruct (widget_show_all _ _) as [[?|e] g4]; [|done].
    unfold widget_count_ok in *. simpl.
    rewrite length_app, length_cons, length_nil. lia.
  - unfold remove_widget_from_taskeditor, mbind, M_bind, bind, attr, id. cbv beta iota.
    destruct (is_editor (self h) && truthy v); [|done].
    unfold try_except, remove_widget_try, mbind, M_bind, bind, attr, ext. cbv beta iota.
    destruct (builder_get_object _ _ _) as [[wi|e] g1]; cbn [self gtk log]; [|done].
    destruct (truthy wi && py_in v (taskwidget_widg (self h))); [|done].
    unfold taskwidget_widg_pop, mbind, M_bind, bind, attr, set_attr. cbn [self].
    destruct (list_pop (taskwidget_widg (self h)) v) as [[w rest]|e] eqn:Hpop; [|done].
    apply list_pop_length in Hpop. cbn [self gtk log].
    assert (widget_count_ok (set_taskwidget_widg rest (self h))) as Hrest.
    { unfold widget_count_ok in *. simpl. lia. }
    unfold mret, M_ret, ret, log_exception. cbn [self gtk log].
    by destruct (container_remove wi w g1) as [[?|?] ?].
Qed.

End more_task_editor_widgets.

Section configuration_paths.
Import Py api.
Context {K F Bytes : Type} `{Countable K}.
Context `{!Dirs, !FileSystem F Bytes, !Pickle K Bytes}.

Lemma os_path_join_absolute a b : starts_with_slash b = true → os_path_join a b = b.
Proof. unfold os_path_join. by intros ->. Qed.

(** X14.  A file name that starts with a slash is used as it is:
    [load_configuration_object] then reads that file, outside the
    plugin's configuration directory, and gives the same result whatever
    the plugin name. *)
Theorem load_configuration_object_absolute (plugin1 plugin2 filename : string)
    (default_values : option (gmap K pyval)) (f : F) :
  starts_with_slash filename = true →
  load_configuration_object plugin1 filename default_values f
  = load_configuration_object plugin2 filename default_values f
  ∧ (∀ e f', read_file filename f = (Raise e, f') →
       load_configuration_object plugin1 filename default_values f
       = (Returns (Ok (default ∅ default_values)), f'))
  ∧ (∀ data item f', read_file filename f = (Ok data, f') →
       pickle_loads data = Returns (Ok (Dict item)) →
       load_configuration_object plugin1 filename default_values f
       = (Returns (Ok (item ∪ default ∅ default_values)), f')).
Proof.
  intros Habs. rewrite !load_configuration_object_unfold, !os_path_join_absolute by done.
  split_and!; [done| |].
  - by intros e f' ->.
  - by intros data item f' -> ->.
Qed.

End configuration_paths.

Section construction.
Import Py api.
Context {G : Type} `{!Windows G}.

(** X15.  A [PluginAPI] object that [__init__] has built has handed out
    no widget id, lists no widget and no selection callback, and keeps
    the requester and the view manager it was given.  Built without a
    task editor it is a browser API.  Built with one, its [ui] is the
    editor and its task id is what the editor's [get_task] gave, and it
    is an editor API exactly when that task id is truthy. *)
Theorem init_attributes (requester view_manager taskeditor : pyval) (g g' : G)
    (a : PluginAPI) :
  __init__ requester view_manager taskeditor g = (Ok a, g') →
  taskwidget_id a = 0 ∧ taskwidget_widg a = [] ∧ widget_count_ok a
  ∧ selection_changed_callback_listeners a = []
  ∧ api.requester a = requester ∧ api.view_manager a = view_manager
  ∧ (truthy taskeditor = false → is_browser a = true ∧ task_id a = PNone)
  ∧ (truthy taskeditor = true →
     ui a = taskeditor
     ∧ (∃ g1, taskeditor_get_task taskeditor g1 = (Ok (task_id a), g'))
     ∧ is_editor a = truthy (task_id a)).
Proof.
  unfold __init__, mbind, M_bind, bind.
  destruct (truthy taskeditor).
  - destruct (get_builder taskeditor g) as [[b|e] g1]; [|done].
    destruct (taskeditor_get_task taskeditor g1) as [[t|e] g2] eqn:Ht; [|done].
    intros [= <- <-]. simpl. split_and!; try done. intros _. split_and!; eauto.
  - destruct (view_manager_browser view_manager g) as [[br|e] g1]; [|done].
    destruct (get_builder br g1) as [[b|e] g2]; [|done].
    destruct (view_manager_browser view_manager g2) as [[br'|e] g3]; [|done].
    destruct (selection_connect_changed br' g3) as [[?|e] g4]; [|done].
    intros [= <- <-]. simpl. split_and!; done.
Qed.

End construction.

(** ** The further properties at work in the small world *)

Section more_examples.
Import Py InMemory.

(** The active tasks of the two-task table: one dict, for task "a". *)
Lemma get_tasks_filtered_shape_example :
  ∃ keys h1,
    dbuswrapper.get_task_ids_filtered [PStr "active"] two_tasks = (Ok keys, h1)
    ∧ dbuswrapper.self
        (dbuswrapper.get_tasks_filtered [PStr "active"] two_tasks).2
      = dbuswrapper.self two_tasks
    ∧ keys ≠ []
    ∧ List.length [dbuswrapper.task_to_dict task_a] = List.length keys
    ∧ Forall task_dict_ok [dbuswrapper.task_to_dict task_a].
Proof.
  apply (get_tasks_filtered_shape [PStr "active"] two_tasks
           (dbuswrapper.TaskDicts [dbuswrapper.task_to_dict task_a])
           (dbuswrapper.get_tasks_filtered [PStr "active"] two_tasks).2).
  vm_compute. reflexivity.
Defined.

(** " active  ,done<tab>" is read as "active,done". *)
Lemma get_task_ids_ignores_padding_example :
  dbuswrapper.get_task_ids
    (join comma
       (map dbuswrapper.padded
          [([32], [97; 99; 116; 105; 118; 101], [32; 32]);
           ([], [100; 111; 110; 101], [9])]%N)) two_tasks
  = dbuswrapper.get_task_ids
      (join comma
         (map (λ p, p.1.2)
            [([32], [97; 99; 116; 105; 118; 101], [32; 32]);
             ([], [100; 111; 110; 101], [9])]%N)) two_tasks.
Proof.
  apply (get_task_ids_ignores_padding
           [([32], [97; 99; 116; 105; 118; 101], [32; 32]);
            ([], [100; 111; 110; 101], [9])]%N two_tasks).
  - discriminate.
  - repeat constructor; cbn [fst snd];
      try (intros Hin; repeat (apply elem_of_cons in Hin as [Hin|Hin]; [discriminate|]);
           by apply elem_of_nil in Hin).
Defined.


(** Without a title in the task data, task "b" has its new done date
    when the call raises. *)
Lemma modify_task_half_done_example :
  dbuswrapper.modify_task (PStr "b") task_data_untitled two_tasks
  = (Raise (OtherError "KeyError"),
     dbuswrapper.Build_Heap (dbuswrapper.self two_tasks)
       (with_tasks (<["b" := task_b_reclosed]> (tasks (dbuswrapper.world two_tasks)))
          (dbuswrapper.world two_tasks))).
Proof.
  apply (modify_task_half_done (PStr "b") task_data_untitled two_tasks
           (PStr "b") (PStr "done") (PStr "2013-04-03")
           (dbuswrapper.world two_tasks) PNone).
  - reflexivity.
  - discriminate.
  - reflexivity.
  - reflexivity.
  - vm_compute. reflexivity.
  - reflexivity.
Defined.

Lemma new_task_dict_example :
  task_dict_ok
    (dbuswrapper.task_to_dict
       {| dbuswrapper.get_id := PStr "new"; dbuswrapper.get_status := PStr "active";
          dbuswrapper.get_title := PStr "Buy milk";
          dbuswrapper.get_due_date := "2013-05-02"; dbuswrapper.get_start_date := "";
          dbuswrapper.get_closed_date := "";
          dbuswrapper.get_tags_name := PList [PStr "@home"];
          dbuswrapper.get_text := PStr "";
          dbuswrapper.get_children := PList [PStr "a"] |}).
Proof.
  apply (new_task_dict (PStr "active") (PStr "Buy milk") (PStr "2013-05-02")
           (PStr "") (PStr "") [PStr "@home"] (PStr "") [PStr "a"] two_tasks
           (dbuswrapper.new_task (PStr "active") (PStr "Buy milk") (PStr "2013-05-02")
              (PStr "") (PStr "") [PStr "@home"] (PStr "") [PStr "a"] two_tasks).2).
  vm_compute. reflexivity.
Defined.

(** Given one of its two widgets, the editor API keeps both. *)
Lemma remove_widget_removes_nothing_example :
  ∃ h', api.remove_widget_from_taskeditor (PObj 10) editor_api = (Ok PNone, h')
    ∧ api.self h' = api.self editor_api
    ∧ (api.gtk h' = api.gtk editor_api
       ∨ api.gtk h'
         = (api.builder_get_object (api.builder (api.self editor_api)) "vbox4"
              (api.gtk editor_api)).2).
Proof.
  apply (remove_widget_removes_nothing (PObj 10) editor_api).
  repeat constructor; eexists; reflexivity.
Defined.

Lemma widget_count_kept_example :
  api.widget_count_ok
    (api.self (api.add_widget_to_taskeditor (PObj 12) editor_api).2)
  ∧ api.widget_count_ok
      (api.self (api.remove_widget_from_taskeditor (PObj 12) editor_api).2).
Proof.
  apply (widget_count_kept (PObj 12) editor_api).
  unfold api.widget_count_ok. simpl. lia.
Defined.

(** The settings of one plugin, read under the name of another. *)
Lemma load_configuration_object_absolute_example :
  api.load_configuration_object "hamster"
    "/home/user/.config/gtg/plugins/hamster/settings" (Some default_settings)
    saved_files
  = api.load_configuration_object "export"
      "/home/user/.config/gtg/plugins/hamster/settings" (Some default_settings)
      saved_files
  ∧ (∀ e f', api.read_file "/home/user/.config/gtg/plugins/hamster/settings"
               saved_files = (Raise e, f') →
       api.load_configuration_object "hamster"
         "/home/user/.config/gtg/plugins/hamster/settings" (Some default_settings)
         saved_files
       = (Returns (Ok (default ∅ (Some default_settings))), f'))
  ∧ (∀ data item f', api.read_file "/home/user/.config/gtg/plugins/hamster/settings"
                       saved_files = (Ok data, f') →
       api.pickle_loads data = Returns (Ok (api.Dict item)) →
       api.load_configuration_object "hamster"
         "/home/user/.config/gtg/plugins/hamster/settings" (Some default_settings)
         saved_files
       = (Returns (Ok (item ∪ default ∅ (Some default_settings))), f')).
Proof.
  apply (load_configuration_object_absolute "hamster" "export"
           "/home/user/.config/gtg/plugins/hamster/settings"
           (Some default_settings) saved_files).
  reflexivity.
Defined.

(** The API object of an editor on task "a". *)
Lemma init_attributes_example :
  ∃ a, (api.__init__ (PObj 2) (PObj 4) (PObj 5) (api.gtk editor_api)).1 = Ok a
    ∧ api.taskwidget_id a = 0 ∧ api.taskwidget_widg a = []
    ∧ api.widget_count_ok a
    ∧ api.selection_changed_callback_listeners a = []
    ∧ api.requester a = PObj 2 ∧ api.view_manager a = PObj 4
    ∧ (truthy (PObj 5) = false → api.is_browser a = true ∧ api.task_id a = PNone)
    ∧ (truthy (PObj 5) = true →
       api.ui a = PObj 5
       ∧ (∃ g1, api.taskeditor_get_task (PObj 5) g1
                = (Ok (api.task_id a), api.gtk editor_api))
       ∧ api.is_editor a = truthy (api.task_id a)).
Proof.
  eexists. split; [reflexivity|].
  apply (init_attributes (PObj 2) (PObj 4) (PObj 5) (api.gtk editor_api)
           (api.gtk editor_api)).
  reflexivity.
Defined.

End more_examples.
